(** * cbirGUI.py: the CBIR front-end, its result-table parser and its
      tool orchestration

    A shallow embedding of [gui/cbirGUI.py].  Python [str] values are
    modelled as [string], read as sequences of code points U+0000..U+00FF
    (one [ascii] per code point); the built-ins the program calls
    ([str.split], [str.strip], [in], [str.startswith], [int], [float],
    list indexing) are modelled from their CPython behaviour on that
    range.  Python exceptions are values of [Result]; floats are IEEE
    binary64 values of [spec_float].  What the program prints on the
    console is left out. *)

From Stdlib Require Import ZArith List String Ascii Bool Lia.
From Stdlib Require Import SpecFloat DecimalString.
Import ListNotations.
Open Scope string_scope.
Open Scope list_scope.

(** ** Exceptions *)

Inductive Exn : Type :=
| KeyError
| ValueError
| IndexError
| TimeoutExpired      (* subprocess.TimeoutExpired *)
| OtherException.     (* any other subclass of Exception, e.g. OSError *)

Inductive Result (A : Type) : Type :=
| Ok (a : A)
| Raise (e : Exn).
Arguments Ok {A} a.
Arguments Raise {A} e.

Definition bind {A B : Type} (c : Result A) (k : A -> Result B) : Result B :=
  match c with
  | Ok a => k a
  | Raise e => Raise e
  end.

Notation "x <- c ;; k" := (bind c (fun x => k))
  (at level 61, c at next level, right associativity).

(** [try: body / except: handler] with a bare [except]. *)
Definition try_except {A : Type} (body : Result A) (handler : Exn -> Result A)
  : Result A :=
  match body with
  | Ok a => Ok a
  | Raise e => handler e
  end.

Definition is_raise {A : Type} (r : Result A) : bool :=
  match r with Ok _ => false | Raise _ => true end.

Definition raises {A : Type} (x : Exn) (r : Result A) : bool :=
  match r, x with
  | Raise KeyError, KeyError => true
  | Raise ValueError, ValueError => true
  | Raise IndexError, IndexError => true
  | Raise TimeoutExpired, TimeoutExpired => true
  | Raise OtherException, OtherException => true
  | _, _ => false
  end.

(** ** Characters *)

Definition code (c : ascii) : nat := nat_of_ascii c.

Definition in_range (lo hi : nat) (c : ascii) : bool :=
  (lo <=? code c)%nat && (code c <=? hi)%nat.

(** [Py_UNICODE_ISSPACE]: the whitespace of [str.split()] and [str.strip()],
    restricted to U+0000..U+00FF. *)
Definition isspace (c : ascii) : bool :=
  in_range 9 13 c || in_range 28 32 c
  || (code c =? 133)%nat || (code c =? 160)%nat.

(** [Py_ISSPACE]: the C-locale whitespace that [int] and [float] strip. *)
Definition c_isspace (c : ascii) : bool :=
  in_range 9 13 c || (code c =? 32)%nat.

Definition isdigit (c : ascii) : bool := in_range 48 57 c.

Definition digit_value (c : ascii) : Z := Z.of_nat (code c - 48).

(** [Py_TOLOWER], ASCII only. *)
Definition tolower (c : ascii) : ascii :=
  if in_range 65 90 c then ascii_of_nat (code c + 32) else c.

(** ** Strings *)

Definition nonempty (s : string) : bool :=
  match s with EmptyString => false | String _ _ => true end.

Fixpoint lstrip (s : string) : string :=
  match s with
  | EmptyString => EmptyString
  | String c r => if isspace c then lstrip r else s
  end.

Fixpoint rstrip (s : string) : string :=
  match s with
  | EmptyString => EmptyString
  | String c r =>
      let r' := rstrip r in
      if isspace c && negb (nonempty r') then EmptyString else String c r'
  end.

(** [s.strip()] *)
Definition strip (s : string) : string := rstrip (lstrip s).

(** [s.split()]: maximal runs of non-whitespace characters. *)
Fixpoint split_from (s tok : string) : list string :=
  match s with
  | EmptyString => if nonempty tok then [tok] else []
  | String c r =>
      if isspace c
      then (if nonempty tok then tok :: split_from r "" else split_from r "")
      else split_from r (tok ++ String c "")%string
  end.

Definition split (s : string) : list string := split_from s "".

(** [s.split(sep)] for a one-character separator. *)
Fixpoint split_on (sep : ascii) (s : string) : list string :=
  match s with
  | EmptyString => [""]
  | String c r =>
      if Ascii.eqb c sep then "" :: split_on sep r
      else match split_on sep r with
           | h :: t => String c h :: t
           | [] => [String c ""]
           end
  end.

Definition newline : ascii := "010"%char.

(** [w in s] *)
Fixpoint contains (w s : string) : bool :=
  prefix w s
  || match s with
     | EmptyString => false
     | String _ r => contains w r
     end.

(** [s.startswith(p)] *)
Definition startswith (p s : string) : bool := prefix p s.

(** [sep.join(l)] *)
Fixpoint join (sep : string) (l : list string) : string :=
  match l with
  | [] => ""
  | [x] => x
  | x :: r => (x ++ sep ++ join sep r)%string
  end.

(** [str(n)] for a non-negative integer. *)
Definition str_of_nat (n : nat) : string :=
  NilEmpty.string_of_uint (Nat.to_uint n).

(** [l[i]] for [i >= 0]. *)
Definition getitem {A : Type} (l : list A) (i : nat) : Result A :=
  match nth_error l i with
  | Some a => Ok a
  | None => Raise IndexError
  end.

(** ** Numeric conversions *)

(** [_PyUnicode_TransformDecimalAndSpaceToASCII]: code points below 127 are
    kept, other whitespace becomes a blank, and the conversion stops with a
    ['?'] at the first other character (no code point in U+007F..U+00FF is
    a decimal digit). *)
Fixpoint to_ascii_digits (s : string) : string :=
  match s with
  | EmptyString => EmptyString
  | String c r =>
      if (code c <? 127)%nat then String c (to_ascii_digits r)
      else if isspace c then String " "%char (to_ascii_digits r)
      else "?"
  end.

Fixpoint c_lstrip (s : string) : string :=
  match s with
  | EmptyString => EmptyString
  | String c r => if c_isspace c then c_lstrip r else s
  end.

Fixpoint c_rstrip (s : string) : string :=
  match s with
  | EmptyString => EmptyString
  | String c r =>
      let r' := c_rstrip r in
      if c_isspace c && negb (nonempty r') then EmptyString else String c r'
  end.

(** An optional leading sign: [(negative, rest)]. *)
Definition take_sign (s : string) : bool * string :=
  match s with
  | String "-"%char r => (true, r)
  | String "+"%char r => (false, r)
  | _ => (false, s)
  end.

(** *** [int(s)] *)

Inductive Prev : Type := AtStart | AfterDigit | AfterUnderscore.

(** The digit loop of [PyLong_FromString] in base 10: the value read, the
    number of digits, and the unread rest; [None] on a leading, doubled or
    trailing underscore. *)
Fixpoint scan_digits (s : string) (prev : Prev) (acc : Z) (n : nat)
  : option (Z * nat * string) :=
  let stop := match prev with
              | AfterUnderscore => None
              | _ => Some (acc, n, s)
              end in
  match s with
  | EmptyString => stop
  | String c r =>
      if isdigit c
      then scan_digits r AfterDigit (10 * acc + digit_value c)%Z (S n)
      else if Ascii.eqb c "_"%char
      then match prev with
           | AfterDigit => scan_digits r AfterUnderscore acc n
           | _ => None
           end
      else stop
  end.

(** ** The platform *)

Module subprocess.

(** The arguments of one [subprocess.run] call; [timeout] is in seconds. *)
Record RunArgs : Type := {
  cmd : list string;
  capture_output : bool;
  text : bool;
  timeout : Z;
  cwd : string
}.

Record CompletedProcess : Type := {
  returncode : Z;
  stdout : string;
  stderr : string
}.

End subprocess.

(** What the program takes from the interpreter and the operating system.
    [int_max_str_digits] is [sys.get_int_max_str_digits()]: 4300 by default
    since CPython 3.11, [0] when the limit is off or absent.  [spawn] is the
    behaviour of [subprocess.run]: it returns the completed process, or
    raises [TimeoutExpired] when the time limit in its arguments expires,
    or another exception when the process cannot be started.
    [os.path.relpath(p, start)] returns [os_path_relpath p start] unless
    [os_path_relpath_raises p start] names an exception, which it then
    raises: [ValueError] on Windows when [p] and [start] lie on different
    drives.  That cannot happen between the relative paths the program
    builds itself, which is where [os_path_relpath] is used alone; for the
    image the user chooses see [checked_relpath].  [exn_text e] is
    [str(e)]. *)
Class Platform : Type := {
  int_max_str_digits : nat;
  World : Type;
  spawn : subprocess.RunArgs -> World ->
          Result subprocess.CompletedProcess * World;
  os_path_exists : string -> World -> bool;
  os_path_join : string -> string -> string;
  os_path_relpath : string -> string -> string;
  os_path_relpath_raises : string -> string -> option Exn;
  os_path_basename : string -> string;
  exn_text : Exn -> string
}.

Section Interpreter.

Context `{Platform}.

Definition exceeds_digit_limit (n : nat) : bool :=
  (640 <? n)%nat && (0 <? int_max_str_digits)%nat
  && (int_max_str_digits <? n)%nat.

Definition py_int (s : string) : Result Z :=
  let '(neg, r) := take_sign (c_lstrip (to_ascii_digits s)) in
  match scan_digits r AtStart 0%Z 0%nat with
  | None => Raise ValueError
  | Some (v, n, rest) =>
      if (n =? 0)%nat then Raise ValueError
      else if exceeds_digit_limit n then Raise ValueError
      else if nonempty (c_lstrip rest) then Raise ValueError
      else Ok (if neg then (- v)%Z else v)
  end.

(** *** [float(s)] *)

Definition prec : Z := 53.
Definition emax : Z := 1024.

(** The binary64 value nearest to [m * 10^e10] (ties to even), with the
    sign bit [neg]; [m >= 0]. *)
Definition decimal_to_double (neg : bool) (m e10 : Z) : spec_float :=
  match m with
  | Zpos p =>
      let num := (p * Z.to_pos (10 ^ Z.max e10 0))%positive in
      let den := Z.to_pos (10 ^ Z.max (- e10) 0) in
      SFdiv prec emax (S754_finite neg num 0) (S754_finite false den 0)
  | _ => S754_zero neg
  end.

Fixpoint take_digits (s : string) (acc : Z) (n : nat) : Z * nat * string :=
  match s with
  | EmptyString => (acc, n, s)
  | String c r =>
      if isdigit c then take_digits r (10 * acc + digit_value c)%Z (S n)
      else (acc, n, s)
  end.

(** The exponent part of a decimal literal: consumed only when at least
    one digit follows the [e] and its optional sign. *)
Definition take_exponent (s : string) : Z * string :=
  match s with
  | String c r =>
      if Ascii.eqb (tolower c) "e"%char then
        let '(eneg, r1) := take_sign r in
        let '(ev, ne, r2) := take_digits r1 0%Z 0%nat in
        if (ne =? 0)%nat then (0%Z, s)
        else ((if eneg then - ev else ev)%Z, r2)
      else (0%Z, s)
  | EmptyString => (0%Z, s)
  end.

(** [_Py_dg_strtod]: sign, digits, optional point and digits, optional
    exponent; [None] when no digit is found. *)
Definition parse_decimal (s : string) : option (spec_float * string) :=
  let '(neg, r0) := take_sign s in
  let '(ip, ni, r1) := take_digits r0 0%Z 0%nat in
  let '(m, nf, r2) :=
    match r1 with
    | String "."%char r => take_digits r ip 0%nat
    | _ => (ip, 0%nat, r1)
    end in
  if (ni + nf =? 0)%nat then None
  else
    let '(e, r3) := take_exponent r2 in
    Some (decimal_to_double neg m (e - Z.of_nat nf), r3).

(** [case_insensitive_match]: the rest of [s] after the lower-case word [t]. *)
Fixpoint match_ci (t s : string) : option string :=
  match t with
  | EmptyString => Some s
  | String a t' =>
      match s with
      | String c s' => if Ascii.eqb (tolower c) a then match_ci t' s' else None
      | EmptyString => None
      end
  end.

(** [_Py_parse_inf_or_nan] *)
Definition parse_inf_or_nan (s : string) : option (spec_float * string) :=
  let '(neg, r) := take_sign s in
  match match_ci "inf" r with
  | Some r1 =>
      Some (S754_infinity neg,
            match match_ci "inity" r1 with Some r2 => r2 | None => r1 end)
  | None =>
      match match_ci "nan" r with
      | Some r1 => Some (S754_nan, r1)
      | None => None
      end
  end.

(** [_Py_string_to_number_with_underscores]: an underscore is dropped when
    it stands between two digits and is an error anywhere else. *)
Fixpoint drop_underscores (s : string) (prev : ascii) : option string :=
  match s with
  | EmptyString => if Ascii.eqb prev "_"%char then None else Some ""
  | String c r =>
      if Ascii.eqb c "_"%char
      then (if isdigit prev then drop_underscores r c else None)
      else if Ascii.eqb prev "_"%char && negb (isdigit c) then None
      else option_map (String c) (drop_underscores r c)
  end.

Definition py_float (s : string) : Result spec_float :=
  let t := c_rstrip (c_lstrip (to_ascii_digits s)) in
  if negb (nonempty t) then Raise ValueError
  else
    match (if contains "_" t then drop_underscores t zero else Some t) with
    | None => Raise ValueError
    | Some u =>
        match (match parse_decimal u with
               | Some r => Some r
               | None => parse_inf_or_nan u
               end) with
        | Some (x, EmptyString) => Ok x
        | _ => Raise ValueError
        end
    end.

(** ** Data model *)

(** One entry of the parsed result table: the dictionary
    [{'rank': ..., 'filename': ..., 'distance': ...}]. *)
Record QueryResult : Type := {
  rank : Z;
  filename : string;
  distance : spec_float
}.

(** One value of [features_config]. *)
Record FeatureConfig : Type := {
  csv : string;
  metric : string;
  description : string
}.

Record Label : Type := { text : string; foreground : string }.

Inductive MessageBox : Type :=
| showinfo (title message : string)
| showwarning (title message : string)
| showerror (title message : string).

(** What [results_inner_frame] holds. *)
Inductive ResultsView : Type :=
| NoResults
| QueryPreview (path : string)
| ResultGrid (results : list QueryResult) (feature metric : string).

(** The attributes of a [CBIRGui] instance that the modelled methods read
    or write; [dialogs] records the modal message boxes shown, oldest
    first. *)
Record Gui : Type := {
  features_config : list (string * FeatureConfig);
  selected_image_path : option string;
  feature_var : string;
  metric_var : string;
  topn_var : string;
  feature_desc_label : Label;
  build_status_label : Label;
  query_status_label : Label;
  results_view : ResultsView;
  dialogs : list MessageBox
}.

Definition set_selected_image_path (g : Gui) (p : option string) : Gui :=
  {| features_config := features_config g; selected_image_path := p;
     feature_var := feature_var g; metric_var := metric_var g;
     topn_var := topn_var g; feature_desc_label := feature_desc_label g;
     build_status_label := build_status_label g;
     query_status_label := query_status_label g;
     results_view := results_view g; dialogs := dialogs g |}.

Definition set_feature_var (g : Gui) (v : string) : Gui :=
  {| features_config := features_config g;
     selected_image_path := selected_image_path g;
     feature_var := v; metric_var := metric_var g;
     topn_var := topn_var g; feature_desc_label := feature_desc_label g;
     build_status_label := build_status_label g;
     query_status_label := query_status_label g;
     results_view := results_view g; dialogs := dialogs g |}.

Definition set_metric_var (g : Gui) (v : string) : Gui :=
  {| features_config := features_config g;
     selected_image_path := selected_image_path g;
     feature_var := feature_var g; metric_var := v;
     topn_var := topn_var g; feature_desc_label := feature_desc_label g;
     build_status_label := build_status_label g;
     query_status_label := query_status_label g;
     results_view := results_view g; dialogs := dialogs g |}.

Definition set_topn_var (g : Gui) (v : string) : Gui :=
  {| features_config := features_config g;
     selected_image_path := selected_image_path g;
     feature_var := feature_var g; metric_var := metric_var g;
     topn_var := v; feature_desc_label := feature_desc_label g;
     build_status_label := build_status_label g;
     query_status_label := query_status_label g;
     results_view := results_view g; dialogs := dialogs g |}.

Definition set_feature_desc_label (g : Gui) (l : Label) : Gui :=
  {| features_config := features_config g;
     selected_image_path := selected_image_path g;
     feature_var := feature_var g; metric_var := metric_var g;
     topn_var := topn_var g; feature_desc_label := l;
     build_status_label := build_status_label g;
     query_status_label := query_status_label g;
     results_view := results_view g; dialogs := dialogs g |}.

Definition set_build_status_label (g : Gui) (l : Label) : Gui :=
  {| features_config := features_config g;
     selected_image_path := selected_image_path g;
     feature_var := feature_var g; metric_var := metric_var g;
     topn_var := topn_var g; feature_desc_label := feature_desc_label g;
     build_status_label := l;
     query_status_label := query_status_label g;
     results_view := results_view g; dialogs := dialogs g |}.

Definition set_query_status_label (g : Gui) (l : Label) : Gui :=
  {| features_config := features_config g;
     selected_image_path := selected_image_path g;
     feature_var := feature_var g; metric_var := metric_var g;
     topn_var := topn_var g; feature_desc_label := feature_desc_label g;
     build_status_label := build_status_label g;
     query_status_label := l;
     results_view := results_view g; dialogs := dialogs g |}.

Definition set_results_view (g : Gui) (v : ResultsView) : Gui :=
  {| features_config := features_config g;
     selected_image_path := selected_image_path g;
     feature_var := feature_var g; metric_var := metric_var g;
     topn_var := topn_var g; feature_desc_label := feature_desc_label g;
     build_status_label := build_status_label g;
     query_status_label := query_status_label g;
     results_view := v; dialogs := dialogs g |}.

(** A modal [messagebox] call: the box is appended to [dialogs]. *)
Definition show (g : Gui) (m : MessageBox) : Gui :=
  {| features_config := features_config g;
     selected_image_path := selected_image_path g;
     feature_var := feature_var g; metric_var := metric_var g;
     topn_var := topn_var g; feature_desc_label := feature_desc_label g;
     build_status_label := build_status_label g;
     query_status_label := query_status_label g;
     results_view := results_view g; dialogs := dialogs g ++ [m] |}.

(** [d[k]] on a dictionary kept as its list of items. *)
Fixpoint dict_get {V : Type} (d : list (string * V)) (k : string) : Result V :=
  match d with
  | [] => Raise KeyError
  | (k', v) :: r => if String.eqb k k' then Ok v else dict_get r k
  end.

(** ** The result-table parser *)

Definition is_header (line : string) : bool :=
  contains "Rank" line && contains "Filename" line && contains "Distance" line.

(** The body of the [try] block: the three conversions and the record. *)
Definition parse_row (parts : list string) : Result QueryResult :=
  p0 <- getitem parts 0 ;;
  rank <- py_int p0 ;;
  filename <- getitem parts 1 ;;
  p2 <- getitem parts 2 ;;
  distance <- py_float p2 ;;
  Ok {| rank := rank; filename := filename; distance := distance |}.

(** The loop variables [in_results] and [results]. *)
Record LoopState : Type := { in_results : bool; results : list QueryResult }.

(** How an iteration ends: [Next] for the end of the body or [continue],
    [Break] for [break]. *)
Inductive Control : Type := Next | Break.

Definition loop_body (line : string) (st : LoopState)
  : Result (Control * LoopState) :=
  if is_header line then
    Ok (Next, {| in_results := true; results := results st |})
  else if in_results st && nonempty (strip line) then
    if startswith "=" line then Ok (Break, st)
    else
      let parts := split line in
      if (3 <=? List.length parts)%nat then
        rs <- try_except
                (r <- parse_row parts ;; Ok (results st ++ [r]))
                (fun _ => Ok (results st)) ;;
        Ok (Next, {| in_results := in_results st; results := rs |})
      else Ok (Next, st)
  else Ok (Next, st).

(** [for line in lines: ...] *)
Fixpoint for_lines (lines : list string) (st : LoopState) : Result LoopState :=
  match lines with
  | [] => Ok st
  | line :: rest =>
      cs <- loop_body line st ;;
      match cs with
      | (Break, st') => Ok st'
      | (Next, st') => for_lines rest st'
      end
  end.

(** The loop variables before the first line. *)
Definition start : LoopState := {| in_results := false; results := [] |}.

(** The parsing half of [parse_and_display_results]: the list [results]
    when the loop is left. *)
Definition parse_results (output : string) : Result (list QueryResult) :=
  let lines := split_on newline output in
  st <- for_lines lines start ;;
  Ok (results st).

(** ** Methods of [CBIRGui]

    A method runs on the instance and on the outside world, and either
    returns or raises; what it wrote before raising stays written.
    [spawned] is a record of the [subprocess.run] calls made so far, oldest
    first; the program never reads it. *)

Record State : Type := {
  gui : Gui;
  world : World;
  spawned : list subprocess.RunArgs
}.

Definition M (A : Type) : Type := State -> Result A * State.

Definition ret {A : Type} (a : A) : M A := fun s => (Ok a, s).

Definition lift {A : Type} (r : Result A) : M A := fun s => (r, s).

Definition bindM {A B : Type} (c : M A) (k : A -> M B) : M B :=
  fun s =>
    match c s with
    | (Ok a, s') => k a s'
    | (Raise e, s') => (Raise e, s')
    end.

Notation "x <~ c ;; k" := (bindM c (fun x => k))
  (at level 61, c at next level, right associativity).
Notation "c ;;; k" := (bindM c (fun _ => k))
  (at level 61, right associativity).

(** [try: body / except TimeoutExpired: ... / except Exception as e: ...] *)
Definition try_catch {A : Type} (body : M A) (handler : Exn -> M A) : M A :=
  fun s =>
    match body s with
    | (Ok a, s') => (Ok a, s')
    | (Raise e, s') => handler e s'
    end.

Definition get_gui : M Gui := fun s => (Ok (gui s), s).

Definition update_gui (f : Gui -> Gui) : M unit :=
  fun s => (Ok tt, {| gui := f (gui s); world := world s;
                      spawned := spawned s |}).

(** [label.config(text=..., foreground=...)] *)
Definition config_build_status (t fg : string) : M unit :=
  update_gui (fun g => set_build_status_label g {| text := t; foreground := fg |}).

Definition config_query_status (t fg : string) : M unit :=
  update_gui (fun g => set_query_status_label g {| text := t; foreground := fg |}).

Definition messagebox (m : MessageBox) : M unit :=
  update_gui (fun g => show g m).

(** [subprocess.run(cmd, capture_output=True, text=True, timeout=t, cwd=d)] *)
Definition subprocess_run (a : subprocess.RunArgs)
  : M subprocess.CompletedProcess :=
  fun s =>
    let '(r, w) := spawn a (world s) in
    (r, {| gui := gui s; world := w; spawned := spawned s ++ [a] |}).

Definition path_exists (p : string) : M bool :=
  fun s => (Ok (os_path_exists p (world s)), s).

Definition nl : string := String newline "".

Definition exe_dir : string := "../bin/Release".
Definition image_dir : string := "../bin/data/images".
Definition features_dir : string := "../bin/data/features".

(** The table built in [__init__]. *)
Definition initial_features_config : list (string * FeatureConfig) :=
  [ ("baseline",
     {| csv := os_path_join features_dir "baseline_features.csv";
        metric := "ssd";
        description := "Baseline 7x7 Center Square" |});
    ("histogram",
     {| csv := os_path_join features_dir "histogram_features.csv";
        metric := "histogram";
        description := "RGB Color Histogram" |});
    ("chromaticity",
     {| csv := os_path_join features_dir "chromaticity_features.csv";
        metric := "histogram";
        description := "RG Chromaticity Histogram" |});
    ("multihistogram",
     {| csv := os_path_join features_dir "multi_features.csv";
        metric := "multiregion";
        description := ("Multi-Region Histogram (2"
                        ++ String "215"%char "2 Grid)")%string |});
    ("texturecolor",
     {| csv := os_path_join features_dir "texture_features.csv";
        metric := "weighted";
        description := "Sobel Texture + Color" |});
    ("gabor",
     {| csv := os_path_join features_dir "gabor_features.csv";
        metric := "gabor";
        description := "Gabor Texture + Color (Advanced)" |});
    ("dnn",
     {| csv := os_path_join features_dir "ResNet18_olym.csv";
        metric := "cosine";
        description := "ResNet18 DNN Embeddings (Pre-computed)" |});
    ("productmatcher",
     {| csv := os_path_join features_dir "product_features.csv";
        metric := "productmatcher";
        description := "Task 7: DNN(60%) + Center-Color(40%)" |});
    ("faceaware",
     {| csv := os_path_join features_dir "faceaware_features.csv";
        metric := "faceaware";
        description := "Extension: Adaptive Face-Aware Features" |}) ].

(** [on_feature_changed] *)
Definition on_feature_changed : M unit :=
  g <~ get_gui ;;
  let feature := feature_var g in
  config <~ lift (dict_get (features_config g) feature) ;;
  update_gui (fun g => set_metric_var g (metric config)) ;;;
  update_gui (fun g => set_feature_desc_label g
                {| text := description config;
                   foreground := foreground (feature_desc_label g) |}).

(** The instance once [__init__] has run, with the setup check passed:
    the widgets as [create_ui] makes them. *)
Definition created : Gui :=
  {| features_config := initial_features_config;
     selected_image_path := None;
     feature_var := "histogram";
     metric_var := "histogram";
     topn_var := "9";
     feature_desc_label := {| text := ""; foreground := "blue" |};
     build_status_label :=
       {| text := "Ready to build databases"; foreground := "gray" |};
     query_status_label :=
       {| text := "Select image and click to query"; foreground := "gray" |};
     results_view := NoResults;
     dialogs := [] |}.

Definition init (w : World) : State :=
  snd (on_feature_changed {| gui := created; world := w; spawned := [] |}).

(** [clear_results] and [show_query_preview] *)
Definition clear_results : M unit :=
  update_gui (fun g => set_results_view g NoResults).

Definition show_query_preview : M unit :=
  clear_results ;;;
  g <~ get_gui ;;
  match selected_image_path g with
  | Some p => update_gui (fun g => set_results_view g (QueryPreview p))
  | None => ret tt
  end.

(** [select_image], for the path [filepath] returned by the file dialog. *)
Definition select_image (filepath : string) : M unit :=
  if nonempty filepath then
    update_gui (fun g => set_selected_image_path g (Some filepath)) ;;;
    clear_results ;;;
    show_query_preview
  else ret tt.

(** [display_results]: the previous content of the results frame is
    cleared and the grid for [results] takes its place (the widget layout
    and the image loading are not modelled). *)
Definition display_results (rs : list QueryResult) (feature metric : string)
  : M unit :=
  clear_results ;;;
  update_gui (fun g => set_results_view g (ResultGrid rs feature metric)).

Definition parse_and_display_results (output feature metric : string)
  : M unit :=
  rs <~ lift (parse_results output) ;;
  match rs with
  | _ :: _ =>
      config_query_status
        ("Found " ++ str_of_nat (List.length rs) ++ " matches using "
         ++ feature)%string "green" ;;;
      display_results rs feature metric
  | [] =>
      config_query_status "No results found" "red" ;;;
      messagebox (showwarning "No Results" "No matching images found!")
  end.

(** [str(z)] for an integer. *)
Definition str_of_Z (z : Z) : string := NilEmpty.string_of_int (Z.to_int z).

(** *** Database building *)

Definition build_args (feature_type csv_path : string) : subprocess.RunArgs :=
  let csv_filename := os_path_relpath csv_path exe_dir in
  {| subprocess.cmd :=
       [ os_path_join exe_dir "buildFeatureDB.exe";
         os_path_relpath image_dir exe_dir;
         feature_type;
         csv_filename ];
     subprocess.capture_output := true;
     subprocess.text := true;
     subprocess.timeout := 300;
     subprocess.cwd := exe_dir |}.

Definition build_database (feature_type csv_path : string) : M bool :=
  try_catch
    (result <~ subprocess_run (build_args feature_type csv_path) ;;
     if (subprocess.returncode result =? 0)%Z then ret true else ret false)
    (fun e =>
       match e with
       | TimeoutExpired => ret false
       | _ => ret false
       end).

(** The [for] loop of [build_all_databases], on its two accumulators. *)
Fixpoint build_all_loop (items : list (string * FeatureConfig))
    (success_count : nat) (failed : list string) : M (nat * list string) :=
  match items with
  | [] => ret (success_count, failed)
  | (feature_name, config) :: rest =>
      success <~ build_database feature_name (csv config) ;;
      if success : bool
      then build_all_loop rest (success_count + 1) failed
      else build_all_loop rest success_count (failed ++ [feature_name])
  end.

Definition build_all_databases : M unit :=
  config_build_status "Building all databases... Please wait..." "orange" ;;;
  g <~ get_gui ;;
  r <~ build_all_loop (features_config g) 0 [] ;;
  let '(success_count, failed) := r in
  match failed with
  | _ :: _ =>
      let msg := ("Built " ++ str_of_nat success_count ++ "/"
                  ++ str_of_nat (List.length (features_config g))
                  ++ " databases." ++ nl ++ "Failed: "
                  ++ join ", " failed)%string in
      config_build_status msg "orange" ;;;
      messagebox (showwarning "Partial Success" msg)
  | [] =>
      config_build_status
        ("All " ++ str_of_nat success_count
         ++ " databases built successfully!")%string "green" ;;;
      messagebox
        (showinfo "Success"
           ("All " ++ str_of_nat success_count
            ++ " feature databases built successfully!")%string)
  end.

Definition build_selected_database : M unit :=
  g <~ get_gui ;;
  let feature := feature_var g in
  config <~ lift (dict_get (features_config g) feature) ;;
  config_build_status
    ("Building " ++ feature ++ " database... Please wait...")%string
    "orange" ;;;
  success <~ build_database feature (csv config) ;;
  if success : bool then
    config_build_status
      ("Database '" ++ os_path_basename (csv config)
       ++ "' built successfully!")%string "green" ;;;
    messagebox
      (showinfo "Success" (feature ++ " database built successfully!")%string)
  else
    config_build_status
      ("Failed to build " ++ feature ++ " database")%string "red" ;;;
    messagebox
      (showerror "Error"
         ("Failed to build " ++ feature ++ " database." ++ nl
          ++ "Check console for details.")%string).

(** *** Querying *)

Definition query_args (query_image_rel csv_file_rel feature metric : string)
    (top_n : Z) : subprocess.RunArgs :=
  {| subprocess.cmd :=
       [ os_path_join exe_dir "queryImage.exe";
         query_image_rel;
         csv_file_rel;
         feature;
         metric;
         str_of_Z top_n ];
     subprocess.capture_output := true;
     subprocess.text := true;
     subprocess.timeout := 60;
     subprocess.cwd := exe_dir |}.

(** [os.path.relpath(p, start)] for a path that need not be the
    program's own. *)
Definition checked_relpath (p start : string) : Result string :=
  match os_path_relpath_raises p start with
  | Some e => Raise e
  | None => Ok (os_path_relpath p start)
  end.

(** [find_matches].  Inside the [try], the path of the chosen image is
    made relative with [checked_relpath], so that an image on another
    drive raises there; the feature file is one of the program's own
    relative paths. *)
Definition find_matches : M unit :=
  g <~ get_gui ;;
  match selected_image_path g with
  | Some (String _ _ as path) =>
      let feature := feature_var g in
      config <~ lift (dict_get (features_config g) feature) ;;
      let csv_file := csv config in
      let metric := metric config in
      top_n <~ lift (py_int (topn_var g)) ;;
      found <~ path_exists csv_file ;;
      if negb found then
        messagebox
          (showerror "Database Not Found"
             ("Database '" ++ os_path_basename csv_file ++ "' not found!"
              ++ nl ++ nl ++ "Please build the database first.")%string)
      else
        config_query_status
          ("Querying with " ++ feature ++ "... Please wait...")%string
          "orange" ;;;
        try_catch
          (query_image_rel <~ lift (checked_relpath path exe_dir) ;;
           let csv_file_rel := os_path_relpath csv_file exe_dir in
           result <~ subprocess_run
                       (query_args query_image_rel csv_file_rel
                                   feature metric top_n) ;;
           if (subprocess.returncode result =? 0)%Z then
             parse_and_display_results (subprocess.stdout result)
                                       feature metric
           else
             config_query_status "Query failed!" "red" ;;;
             messagebox
               (showerror "Query Error"
                  ("Query failed!" ++ nl ++ nl
                   ++ "Check console for details.")%string))
          (fun e =>
             match e with
             | TimeoutExpired =>
                 config_query_status "Query timeout!" "red" ;;;
                 messagebox (showerror "Timeout" "Query took too long!")
             | _ =>
                 config_query_status "Query error!" "red" ;;;
                 messagebox
                   (showerror "Error" ("Query error: " ++ exn_text e)%string)
             end)
  | _ => messagebox (showerror "Error" "Please select a query image first!")
  end.

(** *** The event loop *)

Inductive Event : Type :=
| FeatureSelected (name : string)   (* a choice in the feature drop-down *)
| TopNEdited (value : string)       (* an edit of the top-N spin box *)
| ImageChosen (filepath : string)   (* "Select Query Image" and its dialog *)
| BuildAllClicked
| BuildSelectedClicked
| FindMatchesClicked.

Definition callback (ev : Event) : M unit :=
  match ev with
  | FeatureSelected name =>
      update_gui (fun g => set_feature_var g name) ;;; on_feature_changed
  | TopNEdited value => update_gui (fun g => set_topn_var g value)
  | ImageChosen filepath => select_image filepath
  | BuildAllClicked => build_all_databases
  | BuildSelectedClicked => build_selected_database
  | FindMatchesClicked => find_matches
  end.

(** Tk reports an exception raised by a callback and goes on. *)
Definition handle (s : State) (ev : Event) : State := snd (callback ev s).

Definition run_events (evs : list Event) (s : State) : State :=
  fold_left handle evs s.

(** The value each [build_database] call of a "build all" run returns,
    in the order of the calls. *)
Fixpoint build_outcomes (items : list (string * FeatureConfig)) (s : State)
  : list bool :=
  match items with
  | [] => []
  | (feature_name, config) :: rest =>
      let '(r, s') := build_database feature_name (csv config) s in
      match r with
      | Ok b => b :: build_outcomes rest s'
      | Raise _ => []
      end
  end.

(** ** Notions used to state the properties *)

(** The records one line yields when it is read as a row. *)
Definition row_record (line : string) : list QueryResult :=
  match parse_row (split line) with
  | Ok r => [r]
  | Raise _ => []
  end.

(** A method leaves the feature table as it found it. *)
Definition keeps_config {A : Type} (m : M A) : Prop :=
  forall s, features_config (gui (snd (m s))) = features_config (gui s).

(** The arguments of the successive [subprocess.run] calls of a
    "build all" run. *)
Definition build_all_args (items : list (string * FeatureConfig))
  : list subprocess.RunArgs :=
  map (fun item => build_args (fst item) (csv (snd item))) items.

(** The names of the features whose build returned [False]. *)
Definition failed_names (items : list (string * FeatureConfig))
    (outcomes : list bool) : list string :=
  map fst (filter (fun p => negb (snd p)) (combine (map fst items) outcomes)).

Definition count_true (l : list bool) : nat := List.length (filter id l).

End Interpreter.

(** [w] occurs in [s] as a block of consecutive characters. *)
Definition occurs (w s : string) : Prop :=
  exists a b, s = (a ++ w ++ b)%string.

Fixpoint has_char (c : ascii) (s : string) : bool :=
  match s with
  | EmptyString => false
  | String c' r => Ascii.eqb c' c || has_char c r
  end.

(** A line: a string without a line feed. *)
Definition is_line (s : string) : bool := negb (has_char newline s).

Definition sign_bit (f : spec_float) : bool :=
  match f with
  | S754_zero s | S754_infinity s | S754_finite s _ _ => s
  | S754_nan => false
  end.

(** [f] is a finite non-negative binary64 number with a non-positive
    exponent, at most half a unit in the last place away from [num/den]. *)
Definition nearest_double (num den : Z) (f : spec_float) : bool :=
  match f with
  | S754_finite false m e =>
      bounded prec emax m e && (e <=? 0)%Z
      && (2 * Z.abs (Zpos m * den - num * 2 ^ (- e)) <=? den)%Z
  | _ => false
  end.

(** The record [r] is what the first three tokens of [line] convert to;
    its rank is negative, and the sign bit of its distance is set, only
    when the token holds a minus sign. *)
Definition read_from `{Platform} (line : string) (r : QueryResult) : Prop :=
  exists p0 p1 p2 rest,
    split line = p0 :: p1 :: p2 :: rest
    /\ py_int p0 = Ok (rank r)
    /\ filename r = p1
    /\ py_float p2 = Ok (distance r)
    /\ (has_char "-" p0 = false -> (0 <= rank r)%Z)
    /\ (has_char "-" p2 = false -> sign_bit (distance r) = false).


(** ** A sample platform

    A platform on which the builds of [gabor] and [dnn] fail (a non-zero
    exit and a timeout), a query prints a two-row table, and the images on
    drive [D:] lie on another drive than the program. *)

Definition sample_table : string :=
  ("Rank  Filename   Distance" ++ nl ++ "1 img1.jpg 0.0000" ++ nl
   ++ "2 img2.jpg 0.2345")%string.

Definition sample_spawn (a : subprocess.RunArgs) (w : unit)
  : Result subprocess.CompletedProcess * unit :=
  if (subprocess.timeout a =? 60)%Z then
    (Ok {| subprocess.returncode := 0; subprocess.stdout := sample_table;
           subprocess.stderr := "" |}, w)
  else if String.eqb (nth 2 (subprocess.cmd a) "") "gabor" then
    (Ok {| subprocess.returncode := 1; subprocess.stdout := "";
           subprocess.stderr := "cannot read images" |}, w)
  else if String.eqb (nth 2 (subprocess.cmd a) "") "dnn" then
    (Raise TimeoutExpired, w)
  else
    (Ok {| subprocess.returncode := 0; subprocess.stdout := "";
           subprocess.stderr := "" |}, w).

Definition sample_platform : Platform :=
  {| int_max_str_digits := 4300;
     World := unit;
     spawn := sample_spawn;
     os_path_exists := fun _ _ => true;
     os_path_join := fun a b => (a ++ "/" ++ b)%string;
     os_path_relpath := fun p _ => p;
     os_path_relpath_raises :=
       fun p _ => if prefix "D:" p then Some ValueError else None;
     os_path_basename := fun p => p;
     exn_text := fun _ => "" |}.

(** The sample instance with an image chosen. *)
Definition sample_state : State (H := sample_platform) :=
  run_events (H := sample_platform) [ImageChosen "../bin/data/images/q.jpg"]
             (init (H := sample_platform) tt).

(** ** The results grid

    The widgets [display_results] puts into the results frame.  Opening an
    image file, scaling it and turning it into a photo is the platform's:
    [load_image p w] tells whether that succeeds for the file [p]. *)

(** [n / d] rounded to the nearest integer, ties to even; [0 <= n], [0 < d]. *)
Definition round_half_even (n d : Z) : Z :=
  let q := (n / d)%Z in
  match (2 * (n mod d) ?= d)%Z with
  | Lt => q
  | Gt => (q + 1)%Z
  | Eq => if Z.even q then q else (q + 1)%Z
  end.

(** Four decimal digits, for [0 <= n < 10000]. *)
Definition four_digits (n : Z) : string :=
  let digit k := String (ascii_of_nat (48 + Z.to_nat ((n / k) mod 10))) "" in
  (digit 1000%Z ++ digit 100%Z ++ digit 10%Z ++ digit 1%Z)%string.

(** [f"{x:.4f}"]: the decimal numeral with four fractional digits nearest
    to [x], ties to even. *)
Definition format_4f (x : spec_float) : string :=
  match x with
  | S754_nan => "nan"
  | S754_infinity s => if s then "-inf" else "inf"
  | S754_zero s => if s then "-0.0000" else "0.0000"
  | S754_finite s m e =>
      let n := match e with
               | Zneg k => round_half_even (Zpos m * 10000) (2 ^ Zpos k)
               | _ => (Zpos m * 10000 * 2 ^ e)%Z
               end in
      ((if s then "-" else "") ++ str_of_Z (n / 10000) ++ "."
       ++ four_digits (n mod 10000))%string
  end.

Inductive FrameWidgets : Type :=
| Thumbnail (img_path : string) (rank_label : Label) (filename_text : string)
            (distance_label : Label)
| ErrorLabel (message : Label).

(** One [result_frame] and its place in the grid. *)
Record ResultFrame : Type := {
  grid_row : nat;
  grid_column : nat;
  widgets : FrameWidgets
}.

Section Rendering.

Context `{Platform}.
Variable load_image : string -> World -> bool.
Variable w : World.

(** The widgets of the [try] block, for a result whose image loads. *)
Definition thumbnail_widgets (img_path : string) (result : QueryResult)
  : FrameWidgets :=
  let rank_color := if (rank result =? 1)%Z then "green" else "blue" in
  let distance_text :=
    ("Distance: " ++ format_4f (distance result))%string in
  let distance_text :=
    if (rank result =? 1)%Z then (distance_text ++ " (Query)")%string
    else distance_text in
  Thumbnail img_path
    {| text := ("Rank " ++ str_of_Z (rank result))%string;
       foreground := rank_color |}
    (filename result)
    {| text := distance_text; foreground := "gray" |}.

(** The widget of the [except] block. *)
Definition error_widgets (result : QueryResult) : FrameWidgets :=
  ErrorLabel {| text := ("Error loading" ++ nl ++ filename result)%string;
                foreground := "red" |}.

(** [for idx, result in enumerate(results): ...], on the frames made so
    far and on the list [result_images]. *)
Fixpoint render_loop (idx : nat) (results : list QueryResult)
    (frames : list ResultFrame) (result_images : list string)
  : list ResultFrame * list string :=
  match results with
  | [] => (frames, result_images)
  | result :: rest =>
      let row := (idx / 3 + 1)%nat in
      let col := (idx mod 3)%nat in
      let img_path := os_path_join image_dir (filename result) in
      if load_image img_path w then
        render_loop (S idx) rest
          (frames ++ [ {| grid_row := row; grid_column := col;
                          widgets := thumbnail_widgets img_path result |} ])
          (result_images ++ [img_path])
      else
        render_loop (S idx) rest
          (frames ++ [ {| grid_row := row; grid_column := col;
                          widgets := error_widgets result |} ])
          result_images
  end.

(** The header line of the results frame. *)
Definition header_labels (query_path feature metric : string)
    (results : list QueryResult) : list string :=
  [ ("Query: " ++ os_path_basename query_path)%string;
    ("Feature: " ++ feature)%string;
    ("Metric: " ++ metric)%string;
    ("Results: " ++ str_of_nat (List.length results))%string ].

(** The frames and the photos kept once [display_results] has run: the
    old content is cleared first, so both lists start empty. *)
Definition render_results (results : list QueryResult)
  : list ResultFrame * list string :=
  render_loop 0 results [] [].

(** The frame the loop makes for the result at position [idx]. *)
Definition frame_at (idx : nat) (result : QueryResult) : ResultFrame :=
  let img_path := os_path_join image_dir (filename result) in
  {| grid_row := (idx / 3 + 1)%nat;
     grid_column := (idx mod 3)%nat;
     widgets := if load_image img_path w
                then thumbnail_widgets img_path result
                else error_widgets result |}.

End Rendering.

(** ** Notions for the properties of the methods *)

Section Frames.

Context `{Platform}.

(** A method leaves the part [part] of the instance as it found it. *)
Definition keeps_part {A B : Type} (part : Gui -> B) (m : M A) : Prop :=
  forall s, part (gui (snd (m s))) = part (gui s).

(** A method starts no process. *)
Definition spawns_nothing {A : Type} (m : M A) : Prop :=
  forall s, world (snd (m s)) = world s /\ spawned (snd (m s)) = spawned s.

(** A method starts only processes that satisfy [ok]. *)
Definition spawns_only {A : Type} (ok : subprocess.RunArgs -> bool)
    (m : M A) : Prop :=
  forall s, exists new,
    spawned (snd (m s)) = spawned s ++ new /\ forallb ok new = true.

(** A run of one of the two tools as the program makes it: output
    captured as text, in the directory of the executables, the builder
    with three arguments and 300 seconds, the query tool with five
    arguments and 60 seconds. *)
Definition tool_run (a : subprocess.RunArgs) : bool :=
  subprocess.capture_output a && subprocess.text a
  && String.eqb (subprocess.cwd a) exe_dir
  && match subprocess.cmd a with
     | exe :: args =>
         (String.eqb exe (os_path_join exe_dir "buildFeatureDB.exe")
          && (subprocess.timeout a =? 300)%Z
          && (List.length args =? 3)%nat)
         || (String.eqb exe (os_path_join exe_dir "queryImage.exe")
             && (subprocess.timeout a =? 60)%Z
             && (List.length args =? 5)%nat)
     | [] => false
     end.

(** What the feature drop-down, the metric field and the description show
    belongs to the selected feature. *)
Definition selection_shown (g : Gui) : Prop :=
  forall config,
    dict_get (features_config g) (feature_var g) = Ok config ->
    metric_var g = metric config
    /\ text (feature_desc_label g) = description config.

(** The parts of the instance behind [selection_shown]. *)
Definition selection (g : Gui)
  : list (string * FeatureConfig) * string * string * Label :=
  (features_config g, feature_var g, metric_var g, feature_desc_label g).

End Frames.

(** The line end of a text with CR LF line ends. *)
Definition crlf : string := String "013" nl.

(** A sample image loader: only [img2.jpg] is missing. *)
Definition sample_load_image (p : string) (w : unit) : bool :=
  negb (String.eqb p "../bin/data/images/img2.jpg").

(** The sample platform before any feature file has been built. *)
Definition fresh_platform : Platform :=
  {| int_max_str_digits := 4300;
     World := unit;
     spawn := sample_spawn;
     os_path_exists := fun _ _ => false;
     os_path_join := fun a b => (a ++ "/" ++ b)%string;
     os_path_relpath := fun p _ => p;
     os_path_relpath_raises := fun _ _ => None;
     os_path_basename := fun p => p;
     exn_text := fun _ => "" |}.

(** * Properties *)

Section Properties.

Context `{Platform}.

(** ** Strings *)

Lemma prefix_app (w b : string) : prefix w (w ++ b) = true.
Proof.
  induction w as [|c w IH]; simpl.
  - destruct b; reflexivity.
  - destruct (ascii_dec c c) as [_|ne]; [exact IH | congruence].
Qed.

Lemma prefix_split (w s : string) :
  prefix w s = true -> exists b, s = (w ++ b)%string.
Proof.
  revert s; induction w as [|c w IH]; intros s Hp.
  - exists s; reflexivity.
  - destruct s as [|c' s]; simpl in Hp; [discriminate|].
    destruct (ascii_dec c c') as [->|]; [|discriminate].
    destruct (IH s Hp) as [b ->]. exists b; reflexivity.
Qed.

Lemma contains_occurs (w s : string) : contains w s = true <-> occurs w s.
Proof.
  split.
  - induction s as [|c s IH]; cbn [contains]; intros Hc.
    + rewrite orb_false_r in Hc. destruct (prefix_split _ _ Hc) as [b ->].
      exists "", b; reflexivity.
    + apply orb_true_iff in Hc as [Hp|Hr].
      * destruct (prefix_split _ _ Hp) as [b Hb]. exists "", b; exact Hb.
      * destruct (IH Hr) as (a & b & ->). exists (String c a), b; reflexivity.
  - intros (a & b & ->). induction a as [|c a IH].
    + cbn [append]. destruct (w ++ b)%string eqn:E; cbn [contains];
        rewrite <- E, prefix_app; reflexivity.
    + cbn [append contains]. rewrite IH. apply orb_true_r.
Qed.

Lemma split_on_not_nil (sep : ascii) (s : string) : split_on sep s <> [].
Proof.
  destruct s as [|c s]; simpl; [discriminate|].
  destruct (Ascii.eqb c sep); [discriminate|].
  destruct (split_on sep s); discriminate.
Qed.

Lemma split_on_app (sep : ascii) (a b : string) :
  split_on sep (a ++ String sep b) = split_on sep a ++ split_on sep b.
Proof.
  induction a as [|c a IH]; simpl.
  - rewrite Ascii.eqb_refl. reflexivity.
  - destruct (Ascii.eqb c sep).
    + rewrite IH. reflexivity.
    + rewrite IH. pose proof (split_on_not_nil sep a) as Hn.
      destruct (split_on sep a); [congruence | reflexivity].
Qed.

Lemma split_on_line (s : string) :
  is_line s = true -> split_on newline s = [s].
Proof.
  unfold is_line. induction s as [|c s IH]; simpl; intros Hl; [reflexivity|].
  apply negb_true_iff, orb_false_iff in Hl as [Hc Hs].
  rewrite Hc, IH; [reflexivity|]. now rewrite Hs.
Qed.

Lemma append_assoc (a b c : string) :
  ((a ++ b) ++ c = a ++ (b ++ c))%string.
Proof. induction a as [|x a IH]; simpl; [reflexivity | now rewrite IH]. Qed.

Lemma split_on_cons_line (l rest : string) :
  is_line l = true ->
  split_on newline (l ++ nl ++ rest) = l :: split_on newline rest.
Proof.
  intros Hl. unfold nl. cbn [append].
  rewrite split_on_app, split_on_line by assumption. reflexivity.
Qed.

Lemma split_on_join (lines : list string) :
  lines <> [] -> forallb is_line lines = true ->
  split_on newline (join nl lines) = lines.
Proof.
  induction lines as [|l lines IH]; intros Hne Hall; [congruence|].
  simpl in Hall. apply andb_true_iff in Hall as [Hl Hall].
  destruct lines as [|l' lines].
  - simpl. now apply split_on_line.
  - change (join nl (l :: l' :: lines))
      with (l ++ nl ++ join nl (l' :: lines))%string.
    rewrite split_on_cons_line by assumption.
    rewrite IH; [reflexivity | discriminate | assumption].
Qed.

(** A line whose first character is not whitespace is not blank. *)
Lemma strip_nonblank (c : ascii) (r : string) :
  isspace c = false -> nonempty (strip (String c r)) = true.
Proof. intros Hc. unfold strip. simpl. rewrite Hc. simpl. now rewrite Hc. Qed.

Lemma lstrip_blank_split (s tok : string) :
  nonempty (lstrip s) = false ->
  split_from s tok = if nonempty tok then [tok] else [].
Proof.
  revert tok; induction s as [|c s IH]; intros tok Hb; simpl; [reflexivity|].
  simpl in Hb. destruct (isspace c); [|discriminate].
  rewrite (IH "" Hb). simpl. reflexivity.
Qed.

Lemma strip_blank_lstrip (s : string) :
  nonempty (strip s) = false -> nonempty (lstrip s) = false.
Proof.
  unfold strip. induction s as [|c s IH]; simpl; [reflexivity|].
  destruct (isspace c) eqn:Hc; [exact IH|].
  simpl. rewrite Hc. simpl. discriminate.
Qed.

Lemma blank_split (s : string) : nonempty (strip s) = false -> split s = [].
Proof.
  intros Hb. unfold split.
  now rewrite lstrip_blank_split by now apply strip_blank_lstrip.
Qed.

(** ** One iteration of the parsing loop *)

Lemma parse_row_short (parts : list string) :
  (List.length parts < 3)%nat -> is_raise (parse_row parts) = true.
Proof.
  intros Hlen. unfold parse_row.
  destruct parts as [|a [|b [|c r]]]; simpl in *; try lia; try reflexivity;
    destruct (py_int a); reflexivity.
Qed.

Lemma parse_row_guarded (a b c : string) (rest : list string) :
  parse_row (a :: b :: c :: rest)
  = (rank <- py_int a ;; distance <- py_float c ;;
     Ok {| rank := rank; filename := b; distance := distance |}).
Proof. unfold parse_row. simpl. destruct (py_int a); reflexivity. Qed.

Lemma loop_body_header (line : string) (st : LoopState) :
  is_header line = true ->
  loop_body line st = Ok (Next, {| in_results := true; results := results st |}).
Proof. intros Hh. unfold loop_body. now rewrite Hh. Qed.

Lemma loop_body_outside (line : string) (st : LoopState) :
  is_header line = false -> in_results st = false ->
  loop_body line st = Ok (Next, st).
Proof. intros Hh Hi. unfold loop_body. now rewrite Hh, Hi. Qed.

Lemma startswith_eq_nonblank (line : string) :
  startswith "=" line = true -> nonempty (strip line) = true.
Proof.
  intros Hs. destruct (prefix_split _ _ Hs) as [b ->].
  now apply strip_nonblank.
Qed.

Lemma loop_body_banner (line : string) (st : LoopState) :
  is_header line = false -> in_results st = true ->
  startswith "=" line = true ->
  loop_body line st = Ok (Break, st).
Proof.
  intros Hh Hi Hs. unfold loop_body.
  now rewrite Hh, Hi, (startswith_eq_nonblank _ Hs), Hs.
Qed.

Lemma loop_body_row (line : string) (st : LoopState) :
  is_header line = false -> in_results st = true ->
  startswith "=" line = false ->
  loop_body line st
  = Ok (Next, {| in_results := true;
                 results := results st ++ row_record line |}).
Proof.
  intros Hh Hi Hs. unfold loop_body, row_record. rewrite Hh, Hi, Hs.
  destruct st as [i rs]; cbn [in_results results] in *; subst i.
  cbn [andb]. destruct (nonempty (strip line)) eqn:Hb.
  - destruct (3 <=? List.length (split line))%nat eqn:Hlen.
    + destruct (parse_row (split line)); cbn [bind try_except];
        [reflexivity | now rewrite app_nil_r].
    + apply Nat.leb_gt in Hlen. pose proof (parse_row_short _ Hlen) as Hr.
      destruct (parse_row (split line)); [discriminate|].
      now rewrite app_nil_r.
  - rewrite (blank_split _ Hb). cbn. now rewrite app_nil_r.
Qed.

Lemma loop_body_total (line : string) (st : LoopState) :
  exists c st', loop_body line st = Ok (c, st').
Proof.
  unfold loop_body.
  destruct (is_header line); [eauto|].
  destruct (in_results st && nonempty (strip line)); [|eauto].
  destruct (startswith "=" line); [eauto|].
  destruct (3 <=? List.length (split line))%nat; [|eauto].
  destruct (parse_row (split line)); simpl; eauto.
Qed.

Lemma for_lines_total (lines : list string) (st : LoopState) :
  exists st', for_lines lines st = Ok st'.
Proof.
  revert st; induction lines as [|l lines IH]; intros st; simpl; [eauto|].
  destruct (loop_body_total l st) as (c & st' & ->). simpl.
  destruct c; [apply IH | eauto].
Qed.

Lemma parse_results_total (output : string) :
  exists rs, parse_results output = Ok rs.
Proof.
  unfold parse_results.
  destruct (for_lines_total (split_on newline output) start) as [st ->].
  simpl. eauto.
Qed.

(** Lines before the header leave the loop state alone. *)
Lemma for_lines_outside (pre rest : list string) (st : LoopState) :
  forallb (fun l => negb (is_header l)) pre = true ->
  in_results st = false ->
  for_lines (pre ++ rest) st = for_lines rest st.
Proof.
  induction pre as [|l pre IH]; intros Hall Hi; [reflexivity|].
  simpl in Hall. apply andb_true_iff in Hall as [Hl Hall].
  apply negb_true_iff in Hl. simpl.
  rewrite loop_body_outside by assumption. simpl. now apply IH.
Qed.

Lemma for_lines_no_header (lines : list string) (st : LoopState) :
  existsb is_header lines = false -> in_results st = false ->
  for_lines lines st = Ok st.
Proof.
  intros He Hi. rewrite <- (app_nil_r lines).
  rewrite for_lines_outside; [reflexivity| |assumption].
  clear -He. induction lines as [|l lines IH]; [reflexivity|].
  simpl in *. apply orb_false_iff in He as [-> He]. now rewrite IH.
Qed.

(** ** Signs of the converted numbers *)

Lemma has_char_to_ascii_digits (s : string) :
  has_char "-" (to_ascii_digits s) = true -> has_char "-" s = true.
Proof.
  induction s as [|c s IH]; simpl; [discriminate|].
  destruct (code c <? 127)%nat; simpl.
  - intros Hc. apply orb_true_iff in Hc as [-> | Hc]; [reflexivity|].
    rewrite (IH Hc). apply orb_true_r.
  - destruct (isspace c); simpl; [|discriminate].
    intros Hc. rewrite (IH Hc). apply orb_true_r.
Qed.

Lemma has_char_c_lstrip (c : ascii) (s : string) :
  has_char c (c_lstrip s) = true -> has_char c s = true.
Proof.
  induction s as [|x s IH]; simpl; [discriminate|].
  destruct (c_isspace x); [|exact (fun h => h)].
  intros Hc. rewrite (IH Hc). apply orb_true_r.
Qed.

Lemma has_char_c_rstrip (c : ascii) (s : string) :
  has_char c (c_rstrip s) = true -> has_char c s = true.
Proof.
  induction s as [|x s IH]; simpl; [discriminate|].
  destruct (c_isspace x && negb (nonempty (c_rstrip s))); simpl;
    [discriminate|].
  intros Hc. apply orb_true_iff in Hc as [-> | Hc]; [reflexivity|].
  rewrite (IH Hc). apply orb_true_r.
Qed.

Lemma has_char_drop_underscores (c : ascii) (s u : string) (prev : ascii) :
  drop_underscores s prev = Some u ->
  has_char c u = true -> has_char c s = true.
Proof.
  revert u prev; induction s as [|x s IH]; intros u prev; simpl.
  - destruct (Ascii.eqb prev "_"); [discriminate|].
    intros [= <-]. discriminate.
  - destruct (Ascii.eqb x "_").
    + destruct (isdigit prev); [|discriminate].
      intros Hd Hc. rewrite (IH _ _ Hd Hc). apply orb_true_r.
    + destruct (Ascii.eqb prev "_" && negb (isdigit x)); [discriminate|].
      destruct (drop_underscores s x) as [u'|] eqn:Hd; [|discriminate].
      intros [= <-]. simpl. intros Hc.
      apply orb_true_iff in Hc as [-> | Hc]; [reflexivity|].
      rewrite (IH _ _ Hd Hc). apply orb_true_r.
Qed.

Lemma take_sign_negative (s r : string) :
  take_sign s = (true, r) -> has_char "-" s = true.
Proof.
  destruct s as [|c s]; simpl; [discriminate|].
  destruct c as [[] [] [] [] [] [] [] []]; simpl; intros Hs;
    first [discriminate | reflexivity].
Qed.

Lemma take_sign_positive (s : string) :
  has_char "-" s = false -> fst (take_sign s) = false.
Proof.
  intros Hn. destruct (take_sign s) as [[] r] eqn:Hs; [|reflexivity].
  apply take_sign_negative in Hs. congruence.
Qed.

Lemma digit_value_nonneg (c : ascii) : (0 <= digit_value c)%Z.
Proof. unfold digit_value. lia. Qed.

Lemma scan_digits_nonneg (s : string) :
  forall prev acc n v n' rest,
    scan_digits s prev acc n = Some (v, n', rest) ->
    (0 <= acc)%Z -> (0 <= v)%Z.
Proof.
  induction s as [|c s IH]; intros prev acc n v n' rest; cbn [scan_digits].
  - destruct prev; intros [= <- <- <-] Ha; try assumption; discriminate.
  - destruct (isdigit c).
    + intros Hs Ha. apply (IH _ _ _ _ _ _ Hs).
      pose proof (digit_value_nonneg c). lia.
    + destruct (Ascii.eqb c "_").
      * destruct prev; try discriminate. intros Hs Ha.
        now apply (IH _ _ _ _ _ _ Hs).
      * destruct prev; intros [= <- <- <-] Ha; assumption.
Qed.

Lemma py_int_nonneg (s : string) (z : Z) :
  has_char "-" s = false -> py_int s = Ok z -> (0 <= z)%Z.
Proof.
  intros Hn. unfold py_int.
  assert (Hs : fst (take_sign (c_lstrip (to_ascii_digits s))) = false).
  { apply take_sign_positive.
    destruct (has_char "-" (c_lstrip (to_ascii_digits s))) eqn:Hc;
      [|reflexivity].
    apply has_char_c_lstrip, has_char_to_ascii_digits in Hc. congruence. }
  destruct (take_sign (c_lstrip (to_ascii_digits s))) as [neg r].
  simpl in Hs; subst neg.
  destruct (scan_digits r AtStart 0 0) as [[[v n] rest]|] eqn:Hd;
    [|discriminate].
  destruct (n =? 0)%nat; [discriminate|].
  destruct (exceeds_digit_limit n); [discriminate|].
  destruct (nonempty (c_lstrip rest)); [discriminate|].
  intros [= <-]. apply (scan_digits_nonneg _ _ _ _ _ _ _ Hd). lia.
Qed.

Lemma binary_round_aux_sign (m e : Z) (l : location) :
  sign_bit (binary_round_aux prec emax false m e l) = false.
Proof.
  unfold binary_round_aux.
  destruct (shr_fexp prec emax m e l) as [mrs' e'].
  destruct (shr_fexp prec emax _ e' loc_Exact) as [mrs'' e''].
  destruct (shr_m mrs''); try reflexivity.
  destruct (e'' <=? emax - prec)%Z; reflexivity.
Qed.

Lemma decimal_to_double_sign (m e10 : Z) :
  sign_bit (decimal_to_double false m e10) = false.
Proof.
  unfold decimal_to_double, SFdiv. destruct m; try reflexivity.
  destruct (SFdiv_core_binary _ _ _ _ _ _) as [[q e] l].
  apply binary_round_aux_sign.
Qed.

Lemma parse_decimal_sign (u rest : string) (x : spec_float) :
  has_char "-" u = false -> parse_decimal u = Some (x, rest) ->
  sign_bit x = false.
Proof.
  intros Hn. unfold parse_decimal.
  pose proof (take_sign_positive _ Hn) as Hs.
  destruct (take_sign u) as [neg r0]. simpl in Hs; subst neg.
  destruct (take_digits r0 0 0) as [[ip ni] r1].
  destruct (match r1 with
            | String "."%char r => take_digits r ip 0
            | _ => (ip, 0%nat, r1)
            end) as [[m nf] r2].
  destruct (ni + nf =? 0)%nat; [discriminate|].
  destruct (take_exponent r2) as [e r3].
  intros [= <- _]. apply decimal_to_double_sign.
Qed.

Lemma parse_inf_or_nan_sign (u rest : string) (x : spec_float) :
  has_char "-" u = false -> parse_inf_or_nan u = Some (x, rest) ->
  sign_bit x = false.
Proof.
  intros Hn. unfold parse_inf_or_nan.
  pose proof (take_sign_positive _ Hn) as Hs.
  destruct (take_sign u) as [neg r]. simpl in Hs; subst neg.
  destruct (match_ci "inf" r).
  - intros [= <- _]. reflexivity.
  - destruct (match_ci "nan" r); [|discriminate].
    intros [= <- _]. reflexivity.
Qed.

Lemma py_float_sign (s : string) (x : spec_float) :
  has_char "-" s = false -> py_float s = Ok x -> sign_bit x = false.
Proof.
  intros Hn. unfold py_float.
  set (t := c_rstrip (c_lstrip (to_ascii_digits s))).
  assert (Ht : has_char "-" t = false).
  { destruct (has_char "-" t) eqn:Hc; [|reflexivity].
    apply has_char_c_rstrip, has_char_c_lstrip, has_char_to_ascii_digits in Hc.
    congruence. }
  destruct (negb (nonempty t)); [discriminate|].
  destruct (if contains "_" t then drop_underscores t zero else Some t)
    as [u|] eqn:Hu; [|discriminate].
  assert (Hm : has_char "-" u = false).
  { destruct (has_char "-" u) eqn:Hc; [|reflexivity].
    destruct (contains "_" t).
    - apply (has_char_drop_underscores _ _ _ _ Hu) in Hc. congruence.
    - injection Hu as <-. congruence. }
  destruct (parse_decimal u) as [[y rest]|] eqn:Hd.
  - destruct rest; [|discriminate]. intros [= <-].
    now apply (parse_decimal_sign _ _ _ Hm Hd).
  - destruct (parse_inf_or_nan u) as [[y rest]|] eqn:Hi; [|discriminate].
    destruct rest; [|discriminate]. intros [= <-].
    now apply (parse_inf_or_nan_sign _ _ _ Hm Hi).
Qed.

(** ** The loop over the lines *)

Lemma parse_results_join (lines : list string) :
  lines <> [] -> forallb is_line lines = true ->
  parse_results (join nl lines)
  = (st <- for_lines lines start ;; Ok (results st)).
Proof.
  intros Hne Hall. unfold parse_results.
  now rewrite split_on_join by assumption.
Qed.

Lemma for_lines_rows (rows rest : list string) (acc : list QueryResult) :
  forallb (fun l => is_header l || negb (startswith "=" l)) rows = true ->
  for_lines (rows ++ rest) {| in_results := true; results := acc |}
  = for_lines rest
      {| in_results := true;
         results := acc ++ flat_map (fun l => if is_header l then []
                                              else row_record l) rows |}.
Proof.
  revert acc; induction rows as [|l rows IH]; intros acc Hall.
  - simpl. now rewrite app_nil_r.
  - simpl in Hall. apply andb_true_iff in Hall as [Hl Hall].
    cbn [app for_lines flat_map]. destruct (is_header l) eqn:Hh.
    + rewrite loop_body_header by assumption. cbn [bind results].
      now rewrite IH.
    + simpl in Hl. apply negb_true_iff in Hl.
      rewrite loop_body_row by easy. cbn [bind results].
      rewrite IH by assumption. now rewrite app_assoc.
Qed.

Lemma row_record_short (line : string) :
  (List.length (split line) < 3)%nat -> row_record line = [].
Proof.
  intros Hlen. unfold row_record. pose proof (parse_row_short _ Hlen) as Hr.
  destruct (parse_row (split line)); [discriminate | reflexivity].
Qed.




(** ** Where the records come from *)

Lemma row_record_read (line : string) (r : QueryResult) :
  In r (row_record line) -> read_from line r.
Proof.
  destruct (Nat.lt_ge_cases (List.length (split line)) 3) as [Hlen | Hlen].
  - rewrite row_record_short by assumption. intros [].
  - unfold row_record.
    destruct (split line) as [|a [|b [|c rest]]] eqn:Hs; simpl in Hlen;
      try lia.
    rewrite parse_row_guarded.
    destruct (py_int a) as [z|] eqn:Hi; [|intros []]. simpl.
    destruct (py_float c) as [x|] eqn:Hf; [|intros []].
    intros [<- | []]. exists a, b, c, rest. simpl.
    repeat split; try assumption.
    + intros Hn. now apply (py_int_nonneg a).
    + intros Hn. now apply (py_float_sign c).
Qed.

Lemma loop_body_results (line : string) (st st' : LoopState) (c : Control) :
  loop_body line st = Ok (c, st') ->
  forall r, In r (results st') -> In r (results st) \/ read_from line r.
Proof.
  destruct (is_header line) eqn:Hh.
  - rewrite loop_body_header by assumption. intros [= <- <-]. auto.
  - destruct (in_results st) eqn:Hi.
    + destruct (startswith "=" line) eqn:Hs.
      * rewrite loop_body_banner by assumption. intros [= <- <-]. auto.
      * rewrite loop_body_row by assumption. intros [= <- <-] r Hr.
        cbn [results] in Hr. apply in_app_or in Hr as [Hr | Hr]; [auto|].
        right. now apply row_record_read.
    + rewrite loop_body_outside by assumption. intros [= <- <-]. auto.
Qed.

Lemma for_lines_results (lines : list string) :
  forall st st', for_lines lines st = Ok st' ->
  forall r, In r (results st') ->
    In r (results st) \/ exists line, In line lines /\ read_from line r.
Proof.
  induction lines as [|l lines IH]; intros st st'; simpl.
  - intros [= <-]. auto.
  - destruct (loop_body l st) as [[c st1]|] eqn:Hb; [|discriminate].
    simpl. pose proof (loop_body_results _ _ _ _ Hb) as H1.
    destruct c.
    + intros Hf r Hr. destruct (IH _ _ Hf r Hr) as [Hin | (line & Hl & Hrd)].
      * destruct (H1 r Hin) as [? | ?]; [auto | right; exists l; auto].
      * right; exists line; auto.
    + intros [= <-] r Hr.
      destruct (H1 r Hr) as [? | ?]; [auto | right; exists l; auto].
Qed.

(** ** The result-table parser: main results *)

(** C1. A header line holding "Rank", "Filename" and "Distance", followed
    by the rows [1 img1.jpg 0.0000] and [2 img2.jpg 0.2345], parses to
    exactly two records, in that order: (1, "img1.jpg", 0.0) and
    (2, "img2.jpg", 0.2345), the latter distance being the binary64 number
    nearest to 2345/10000. *)
Theorem parse_two_rows (header : string) :
  is_line header = true -> is_header header = true ->
  parse_results
    (header ++ nl ++ "1 img1.jpg 0.0000" ++ nl ++ "2 img2.jpg 0.2345")
  = Ok [ {| rank := 1; filename := "img1.jpg";
            distance := S754_zero false |};
         {| rank := 2; filename := "img2.jpg";
            distance := S754_finite false 8448752900947050 (-55) |} ]
  /\ nearest_double 2345 10000 (S754_finite false 8448752900947050 (-55))
     = true.
Proof.
  intros Hl Hh. split; [|reflexivity].
  unfold parse_results. rewrite split_on_cons_line by assumption.
  cbn [for_lines]. rewrite loop_body_header by assumption.
  reflexivity.
Qed.

(** C2, as amended.  Every record the parser produces is read from one
    line of the text: its rank is [int] of the line's first token and its
    distance is [float] of the third.  The rank is an integer of either
    sign and the distance any binary64 value; the rank is non-negative,
    and the sign bit of the distance is clear, whenever the token holds no
    minus sign. *)
Theorem records_read_from_rows (output : string) (rs : list QueryResult)
    (r : QueryResult) :
  parse_results output = Ok rs -> In r rs ->
  exists line, In line (split_on newline output) /\ read_from line r.
Proof.
  unfold parse_results. intros Hp Hr.
  destruct (for_lines (split_on newline output) start) as [st|] eqn:Hf;
    [|discriminate].
  injection Hp as <-.
  destruct (for_lines_results _ _ _ Hf r Hr) as [[] | Hex]. exact Hex.
Qed.

(** C3, as amended.  Once the header line is found, every later line that
    is not itself a header line is read as a row, up to the first such line
    that begins with ['=']; header lines in between are skipped, and
    nothing from the banner line on yields a record. *)
Theorem rows_until_banner (pre rows post : list string)
    (header banner : string) :
  forallb is_line (pre ++ header :: rows ++ banner :: post) = true ->
  existsb is_header pre = false ->
  is_header header = true ->
  forallb (fun l => is_header l || negb (startswith "=" l)) rows = true ->
  startswith "=" banner = true -> is_header banner = false ->
  parse_results (join nl (pre ++ header :: rows ++ banner :: post))
  = Ok (flat_map (fun l => if is_header l then [] else row_record l) rows).
Proof.
  intros Hlines Hpre Hh Hrows Hb Hbh.
  rewrite parse_results_join;
    [|destruct pre; discriminate | assumption].
  rewrite for_lines_outside; [| |reflexivity].
  - cbn [for_lines]. rewrite loop_body_header by assumption.
    cbn [bind start results]. rewrite for_lines_rows by assumption.
    cbn [for_lines]. rewrite loop_body_banner by easy. reflexivity.
  - clear -Hpre. induction pre as [|l pre IH]; [reflexivity|].
    simpl in *. apply orb_false_iff in Hpre as [-> Hpre]. now rewrite IH.
Qed.

(** C4. A text with no header line parses to no record, without an error,
    and the user is told that nothing was found: the status line reads
    "No results found" and a warning box is shown. *)
Theorem no_header_no_results (output feature metric : string) (s : State) :
  existsb is_header (split_on newline output) = false ->
  parse_results output = Ok []
  /\ parse_and_display_results output feature metric s
     = (Ok tt,
        {| gui := show (set_query_status_label (gui s)
                          {| text := "No results found";
                             foreground := "red" |})
                       (showwarning "No Results" "No matching images found!");
           world := world s;
           spawned := spawned s |}).
Proof.
  intros Hn.
  assert (Hp : parse_results output = Ok []).
  { unfold parse_results. now rewrite for_lines_no_header. }
  split; [exact Hp|].
  unfold parse_and_display_results, bindM, lift. rewrite Hp. reflexivity.
Qed.




(** C6. A line is taken for the header exactly when "Rank", "Filename" and
    "Distance" all occur in it, in whatever order; such a line, and no
    other, turns [in_results] on. *)
Theorem header_by_cooccurrence (line : string) :
  (is_header line = true <->
   occurs "Rank" line /\ occurs "Filename" line /\ occurs "Distance" line)
  /\ (forall rs,
        loop_body line {| in_results := false; results := rs |}
        = Ok (Next, {| in_results := is_header line; results := rs |}))
  /\ (forall rs,
        loop_body "Distance | Filename | Rank"
                  {| in_results := false; results := rs |}
        = Ok (Next, {| in_results := true; results := rs |})).
Proof.
  split; [|split].
  - unfold is_header. rewrite !andb_true_iff, !contains_occurs. tauto.
  - intros rs. destruct (is_header line) eqn:Hh.
    + now rewrite loop_body_header.
    + now rewrite loop_body_outside.
  - intros rs. reflexivity.
Qed.

(** C10. For every text the parsing loop ends with a list of records and
    raises nothing: each iteration completes, a row that passed the
    three-token guard is never indexed out of range, and the bare [except]
    absorbs whatever the conversions raise. *)
Theorem parsing_never_raises (output : string) :
  (exists rs, parse_results output = Ok rs)
  /\ (forall line st, exists c st', loop_body line st = Ok (c, st'))
  /\ (forall a b c rest,
        raises IndexError (parse_row (a :: b :: c :: rest)) = false)
  /\ (forall parts acc,
        is_raise (try_except (r <- parse_row parts ;; Ok (acc ++ [r]))
                             (fun _ => Ok acc)) = false).
Proof.
  split; [apply parse_results_total|].
  split; [apply loop_body_total|].
  split.
  - intros a b c rest. rewrite parse_row_guarded.
    destruct (py_int a) as [z|[]] eqn:Hi; try reflexivity;
      try (unfold py_int in Hi;
           repeat match type of Hi with
                  | context [match ?x with _ => _ end] => destruct x
                  end; discriminate).
    simpl. destruct (py_float c) as [x|[]] eqn:Hf; try reflexivity.
    unfold py_float in Hf.
    repeat match type of Hf with
           | context [match ?x with _ => _ end] => destruct x
           | context [if ?x then _ else _] => destruct x
           end; discriminate.
  - intros parts acc. destruct (parse_row parts); reflexivity.
Qed.

(** ** Tool invocation *)

Lemma build_database_run (feature_type csv_path : string) (s : State) :
  build_database feature_type csv_path s
  = (Ok match fst (spawn (build_args feature_type csv_path) (world s)) with
        | Ok p => (subprocess.returncode p =? 0)%Z
        | Raise _ => false
        end,
     {| gui := gui s;
        world := snd (spawn (build_args feature_type csv_path) (world s));
        spawned := spawned s ++ [build_args feature_type csv_path] |}).
Proof.
  unfold build_database, try_catch, bindM, subprocess_run.
  destruct (spawn (build_args feature_type csv_path) (world s)) as [[p|e] w];
    cbn [fst snd].
  - destruct (subprocess.returncode p =? 0)%Z; reflexivity.
  - destruct e; reflexivity.
Qed.

Lemma build_outcomes_world (items : list (string * FeatureConfig)) :
  forall s1 s2, world s1 = world s2 ->
  build_outcomes items s1 = build_outcomes items s2.
Proof.
  induction items as [|[name config] items IH]; intros s1 s2 Hw;
    [reflexivity|].
  cbn [build_outcomes]. rewrite !build_database_run, Hw.
  f_equal. apply IH. reflexivity.
Qed.

Lemma build_outcomes_length (items : list (string * FeatureConfig)) :
  forall s, List.length (build_outcomes items s) = List.length items.
Proof.
  induction items as [|[name config] items IH]; intros s; [reflexivity|].
  cbn [build_outcomes]. rewrite build_database_run. simpl. now rewrite IH.
Qed.

Lemma failed_names_length (items : list (string * FeatureConfig)) :
  forall outcomes, List.length outcomes = List.length items ->
  (List.length (failed_names items outcomes) + count_true outcomes
   = List.length items)%nat.
Proof.
  unfold failed_names, count_true.
  induction items as [|[name config] items IH]; intros [|b outcomes] Hlen;
    try discriminate; [reflexivity|].
  injection Hlen as Hlen. specialize (IH _ Hlen). rewrite length_map in *.
  destruct b; simpl; lia.
Qed.

Lemma build_all_loop_run (items : list (string * FeatureConfig)) :
  forall success_count failed s,
  exists s',
    build_all_loop items success_count failed s
    = (Ok ((success_count + count_true (build_outcomes items s))%nat,
           failed ++ failed_names items (build_outcomes items s)), s')
    /\ gui s' = gui s
    /\ spawned s' = spawned s ++ build_all_args items.
Proof.
  induction items as [|[name config] items IH]; intros n failed s.
  - exists s. cbn. now rewrite Nat.add_0_r, !app_nil_r.
  - cbn [build_all_loop build_outcomes]. unfold bindM at 1.
    rewrite build_database_run.
    set (a := build_args name (csv config)).
    set (s1 := {| gui := gui s; world := snd (spawn a (world s));
                  spawned := spawned s ++ [a] |}).
    destruct (match fst (spawn a (world s)) with
              | Ok p => (subprocess.returncode p =? 0)%Z
              | Raise _ => false
              end).
    + destruct (IH (n + 1)%nat failed s1) as (s' & -> & Hg & Hs).
      exists s'. split; [|split].
      * unfold count_true, failed_names. cbn. do 3 f_equal. lia.
      * exact Hg.
      * rewrite Hs. unfold s1. cbn. now rewrite <- app_assoc.
    + destruct (IH n (failed ++ [name]) s1) as (s' & -> & Hg & Hs).
      exists s'. split; [|split].
      * unfold count_true, failed_names. cbn. now rewrite <- app_assoc.
      * exact Hg.
      * rewrite Hs. unfold s1. cbn. now rewrite <- app_assoc.
Qed.

(** C7. A "build all" run calls the builder once for each registered
    feature type, in the order of the table and whatever the earlier
    builds returned; when [M] of the [K] builds succeed it reports [M]
    successes and the names of exactly the [K - M] features whose build
    failed. *)
Theorem build_all_reports (s : State) :
  let items := features_config (gui s) in
  let outcomes := build_outcomes items s in
  let failed := failed_names items outcomes in
  let msg := ("Built " ++ str_of_nat (count_true outcomes) ++ "/"
              ++ str_of_nat (List.length items) ++ " databases." ++ nl
              ++ "Failed: " ++ join ", " failed)%string in
  exists s',
    build_all_databases s = (Ok tt, s')
    /\ List.length outcomes = List.length items
    /\ spawned s' = spawned s ++ build_all_args items
    /\ (List.length failed + count_true outcomes = List.length items)%nat
    /\ build_status_label (gui s')
       = match failed with
         | [] => {| text := ("All " ++ str_of_nat (count_true outcomes)
                             ++ " databases built successfully!")%string;
                    foreground := "green" |}
         | _ :: _ => {| text := msg; foreground := "orange" |}
         end
    /\ dialogs (gui s')
       = dialogs (gui s)
         ++ [match failed with
             | [] => showinfo "Success"
                       ("All " ++ str_of_nat (count_true outcomes)
                        ++ " feature databases built successfully!")%string
             | _ :: _ => showwarning "Partial Success" msg
             end].
Proof.
  intros items outcomes failed msg.
  unfold build_all_databases, config_build_status.
  set (s0 := snd (update_gui
                    (fun g => set_build_status_label g
                       {| text := "Building all databases... Please wait...";
                          foreground := "orange" |}) s)).
  destruct (build_all_loop_run items 0 [] s0) as (s1 & Hrun & Hg & Hs).
  assert (Ho : build_outcomes items s0 = outcomes)
    by (apply build_outcomes_world; reflexivity).
  rewrite Ho in Hrun. cbn [app Nat.add] in Hrun. fold failed in Hrun.
  assert (Hlen : List.length outcomes = List.length items)
    by apply build_outcomes_length.
  pose proof (failed_names_length items outcomes Hlen) as Hcount.
  fold failed in Hcount.
  unfold bindM, update_gui, get_gui. cbn [gui features_config
    set_build_status_label]. fold items. unfold s0, update_gui in Hrun.
  cbn [snd gui features_config set_build_status_label] in Hrun.
  fold items in Hrun.
  unfold s0, update_gui in Hg, Hs. cbn [snd gui spawned] in Hg, Hs.
  rewrite Hrun.
  destruct failed as [|f fs] eqn:Hf.
  - eexists; split; [reflexivity|]. cbn. rewrite Hg. cbn.
    repeat split; assumption.
  - eexists; split; [reflexivity|]. cbn. rewrite Hg. cbn.
    repeat split; try assumption.
Qed.

(** C8. The builder is run with a time limit of 300 seconds and the query
    tool with one of 60 seconds.  A build counts as a success exactly when
    the process ends with exit code zero; a non-zero exit code, an expired
    time limit and a failure to start all count as failures, and
    [build_database] returns in every case.  A query whose process ends
    with exit code zero has its output parsed and shown; the three kinds of
    failure end in "Query failed!", "Query timeout!" and "Query error!",
    and [find_matches] returns in every case.  When the path of the chosen
    image cannot be made relative to the directory of the executables (an
    image on another drive), the query tool is not run at all and the
    exception is reported like a failure to start. *)
Theorem tool_outcome_classified (feature_type csv_path : string) (s : State) :
  (let a := build_args feature_type csv_path in
   subprocess.timeout a = 300%Z
   /\ build_database feature_type csv_path s
      = (Ok match fst (spawn a (world s)) with
            | Ok p => (subprocess.returncode p =? 0)%Z
            | Raise _ => false
            end,
         {| gui := gui s; world := snd (spawn a (world s));
            spawned := spawned s ++ [a] |}))
  /\ (forall path config top_n,
        selected_image_path (gui s) = Some path ->
        nonempty path = true ->
        dict_get (features_config (gui s)) (feature_var (gui s)) = Ok config ->
        py_int (topn_var (gui s)) = Ok top_n ->
        os_path_exists (csv config) (world s) = true ->
        let feature := feature_var (gui s) in
        let a := query_args (os_path_relpath path exe_dir)
                            (os_path_relpath (csv config) exe_dir)
                            feature (metric config) top_n in
        subprocess.timeout a = 60%Z
        /\ exists s',
             find_matches s = (Ok tt, s')
             /\ match os_path_relpath_raises path exe_dir with
                | Some e =>
                    spawned s' = spawned s
                    /\ world s' = world s
                    /\ query_status_label (gui s')
                       = match e with
                         | TimeoutExpired =>
                             {| text := "Query timeout!";
                                foreground := "red" |}
                         | _ =>
                             {| text := "Query error!"; foreground := "red" |}
                         end
                | None =>
                    spawned s' = spawned s ++ [a]
                    /\ world s' = snd (spawn a (world s))
                    /\ query_status_label (gui s')
                       = match fst (spawn a (world s)) with
                         | Ok p =>
                             if (subprocess.returncode p =? 0)%Z then
                               match parse_results (subprocess.stdout p) with
                               | Ok ((_ :: _) as rs) =>
                                   {| text := ("Found "
                                               ++ str_of_nat (List.length rs)
                                               ++ " matches using "
                                               ++ feature)%string;
                                      foreground := "green" |}
                               | Ok [] =>
                                   {| text := "No results found";
                                      foreground := "red" |}
                               | Raise _ =>
                                   {| text := "Query error!";
                                      foreground := "red" |}
                               end
                             else {| text := "Query failed!";
                                     foreground := "red" |}
                         | Raise TimeoutExpired =>
                             {| text := "Query timeout!";
                                foreground := "red" |}
                         | Raise _ =>
                             {| text := "Query error!"; foreground := "red" |}
                         end
                end).
Proof.
  split.
  - split; [reflexivity | apply build_database_run].
  - intros path config top_n Hpath Hne Hcfg Htop Hex feature a.
    split; [reflexivity|].
    unfold find_matches, bindM at 1, get_gui. rewrite Hpath.
    destruct path as [|c path]; [discriminate|].
    unfold bindM at 1, lift. rewrite Hcfg.
    unfold bindM at 1. rewrite Htop.
    unfold bindM at 1, path_exists. rewrite Hex. cbn [negb].
    unfold bindM at 1, config_query_status at 1, update_gui at 1.
    unfold try_catch, bindM at 1, checked_relpath.
    destruct (os_path_relpath_raises (String c path) exe_dir) as [e|].
    + destruct e; eexists; (split; [reflexivity|]); cbn; repeat split.
    + unfold bindM at 1, subprocess_run.
      cbn [world gui spawned]. fold feature. fold a.
      destruct (spawn a (world s)) as [[p|e] w]; cbn [fst snd].
      * destruct (subprocess.returncode p =? 0)%Z.
        -- unfold parse_and_display_results, bindM at 1, lift.
           destruct (parse_results_total (subprocess.stdout p)) as [rs ->].
           destruct rs as [|r rs]; eexists; (split; [reflexivity|]);
             cbn [gui world spawned snd]; repeat split.
        -- eexists; split; [reflexivity|]. cbn. repeat split.
      * destruct e; eexists; (split; [reflexivity|]); cbn; repeat split.
Qed.

(** ** The feature registry *)

Lemma keeps_ret {A : Type} (a : A) : keeps_config (ret a).
Proof. intros s; reflexivity. Qed.

Lemma keeps_lift {A : Type} (r : Result A) : keeps_config (lift r).
Proof. intros s; reflexivity. Qed.

Lemma keeps_get_gui : keeps_config get_gui.
Proof. intros s; reflexivity. Qed.

Lemma keeps_path_exists (p : string) : keeps_config (path_exists p).
Proof. intros s; reflexivity. Qed.

Lemma keeps_subprocess_run (a : subprocess.RunArgs) :
  keeps_config (subprocess_run a).
Proof.
  intros s. unfold subprocess_run. now destruct (spawn a (world s)).
Qed.

Lemma keeps_update_gui (f : Gui -> Gui) :
  (forall g, features_config (f g) = features_config g) ->
  keeps_config (update_gui f).
Proof. intros Hf s. apply Hf. Qed.

Lemma keeps_bindM {A B : Type} (c : M A) (k : A -> M B) :
  keeps_config c -> (forall a, keeps_config (k a)) -> keeps_config (bindM c k).
Proof.
  intros Hc Hk s. unfold bindM. specialize (Hc s).
  destruct (c s) as [[a|e] s1]; cbn [snd] in *; [|exact Hc].
  now rewrite Hk.
Qed.

Lemma keeps_try_catch {A : Type} (body : M A) (handler : Exn -> M A) :
  keeps_config body -> (forall e, keeps_config (handler e)) ->
  keeps_config (try_catch body handler).
Proof.
  intros Hb Hh s. unfold try_catch. specialize (Hb s).
  destruct (body s) as [[a|e] s1]; cbn [snd] in *; [exact Hb|].
  now rewrite Hh.
Qed.

Ltac keeps :=
  repeat first
    [ apply keeps_ret | apply keeps_lift | apply keeps_get_gui
    | apply keeps_path_exists | apply keeps_subprocess_run
    | apply keeps_update_gui; intros ?; reflexivity
    | apply keeps_bindM; [|intros ?]
    | apply keeps_try_catch; [|intros ?]
    | match goal with
      | |- keeps_config (if ?b then _ else _) => destruct b
      | |- keeps_config (match ?x with _ => _ end) => destruct x
      end ].

Lemma keeps_on_feature_changed : keeps_config on_feature_changed.
Proof. unfold on_feature_changed. keeps. Qed.

Lemma keeps_select_image (p : string) : keeps_config (select_image p).
Proof.
  unfold select_image, show_query_preview, clear_results. keeps.
Qed.

Lemma keeps_parse_and_display (output feature metric : string) :
  keeps_config (parse_and_display_results output feature metric).
Proof.
  unfold parse_and_display_results, display_results, clear_results,
    config_query_status, messagebox. keeps.
Qed.

Lemma keeps_build_database (feature_type csv_path : string) :
  keeps_config (build_database feature_type csv_path).
Proof. unfold build_database. keeps. Qed.

Lemma keeps_build_all_loop (items : list (string * FeatureConfig)) :
  forall n failed, keeps_config (build_all_loop items n failed).
Proof.
  induction items as [|[name config] items IH]; intros n failed;
    cbn [build_all_loop]; [apply keeps_ret|].
  apply keeps_bindM; [apply keeps_build_database|].
  intros []; apply IH.
Qed.

Lemma keeps_build_all_databases : keeps_config build_all_databases.
Proof.
  unfold build_all_databases, config_build_status, messagebox.
  apply keeps_bindM; [keeps|]. intros _.
  apply keeps_bindM; [keeps|]. intros g.
  apply keeps_bindM; [apply keeps_build_all_loop|]. intros [n failed].
  keeps.
Qed.

Lemma keeps_build_selected_database : keeps_config build_selected_database.
Proof.
  unfold build_selected_database, config_build_status, messagebox.
  apply keeps_bindM; [keeps|]. intros g.
  apply keeps_bindM; [keeps|]. intros config.
  apply keeps_bindM; [keeps|]. intros _.
  apply keeps_bindM; [apply keeps_build_database|]. intros b.
  keeps.
Qed.

Lemma keeps_find_matches : keeps_config find_matches.
Proof.
  unfold find_matches, config_query_status, messagebox.
  apply keeps_bindM; [keeps|]. intros g.
  destruct (selected_image_path g) as [[|c path]|]; [keeps| |keeps].
  apply keeps_bindM; [keeps|]. intros config.
  apply keeps_bindM; [keeps|]. intros top_n.
  apply keeps_bindM; [keeps|]. intros found.
  destruct (negb found); [keeps|].
  apply keeps_bindM; [keeps|]. intros _.
  apply keeps_try_catch.
  - apply keeps_bindM; [keeps|]. intros rel.
    apply keeps_bindM; [keeps|]. intros p.
    destruct (subprocess.returncode p =? 0)%Z;
      [apply keeps_parse_and_display | keeps].
  - intros e. keeps.
Qed.

Lemma keeps_callback (ev : Event) : keeps_config (callback ev).
Proof.
  destruct ev; cbn [callback].
  - apply keeps_bindM; [keeps | intros _; apply keeps_on_feature_changed].
  - keeps.
  - apply keeps_select_image.
  - apply keeps_build_all_databases.
  - apply keeps_build_selected_database.
  - apply keeps_find_matches.
Qed.

Lemma run_events_config (evs : list Event) :
  forall s,
    features_config (gui (run_events evs s)) = features_config (gui s).
Proof.
  induction evs as [|ev evs IH]; intros s; [reflexivity|].
  cbn [run_events fold_left]. fold (run_events evs (handle s ev)).
  rewrite IH. apply keeps_callback.
Qed.

Lemma init_config (w : World) :
  features_config (gui (init w)) = initial_features_config.
Proof. unfold init. now rewrite keeps_on_feature_changed. Qed.

(** C9. Every feature type of the registry has one entry, which a lookup
    returns, with a non-empty metric and a non-empty description; the
    table is built once and no action of the user changes it, so a lookup
    gives the same answer whenever it is made; choosing a feature shows
    that metric and that description. *)
Theorem registry_total_and_stable :
  Forall (fun item =>
            dict_get initial_features_config (fst item) = Ok (snd item)
            /\ nonempty (metric (snd item)) = true
            /\ nonempty (description (snd item)) = true)
         initial_features_config
  /\ NoDup (map fst initial_features_config)
  /\ (forall w evs key,
        dict_get (features_config (gui (run_events evs (init w)))) key
        = dict_get initial_features_config key)
  /\ Forall (fun item =>
               forall w evs,
                 let s := handle (run_events evs (init w))
                                 (FeatureSelected (fst item)) in
                 metric_var (gui s) = metric (snd item)
                 /\ text (feature_desc_label (gui s)) = description (snd item))
            initial_features_config.
Proof.
  split; [|split; [|split]].
  - repeat constructor.
  - repeat constructor; cbn; intuition discriminate.
  - intros w evs key. now rewrite run_events_config, init_config.
  - assert (Hsel : forall item w evs,
               dict_get initial_features_config (fst item) = Ok (snd item) ->
               let s := handle (run_events evs (init w))
                               (FeatureSelected (fst item)) in
               metric_var (gui s) = metric (snd item)
               /\ text (feature_desc_label (gui s)) = description (snd item)).
    { intros item w evs Hget.
      pose proof (run_events_config evs (init w)) as Hcfg.
      rewrite init_config in Hcfg.
      unfold handle, callback, on_feature_changed, bindM, update_gui,
        get_gui, lift.
      cbn [gui features_config feature_var set_feature_var snd].
      rewrite Hcfg, Hget. cbn. split; reflexivity. }
    unfold initial_features_config at 1.
    repeat (apply Forall_cons; [intros w evs; apply Hsel; reflexivity|]).
    apply Forall_nil.
Qed.

End Properties.

(** * The properties on the sample platform *)

(** ** The conversions on sample tokens *)

Example py_int_samples :
  map (py_int (H := sample_platform))
      ["12"; "-3"; "+1_000"; "007"; "0"; "1.0"; "1__0"; "_1"; "1_"; ""; "-";
       "1e3"; "0x10"]
  = [Ok 12%Z; Ok (-3)%Z; Ok 1000%Z; Ok 7%Z; Ok 0%Z; Raise ValueError;
     Raise ValueError; Raise ValueError; Raise ValueError; Raise ValueError;
     Raise ValueError; Raise ValueError; Raise ValueError].
Proof. reflexivity. Qed.

Example py_float_samples :
  map py_float
      ["0.0000"; "-0"; "1"; "1."; ".5"; "1e2"; "-1.5"; "0.1"; "1e-320";
       "9007199254740993"; "1e400"; "inf"; "-Infinity"; "nan"; "1_0.5"]
  = [Ok (S754_zero false); Ok (S754_zero true);
     Ok (S754_finite false 4503599627370496 (-52));
     Ok (S754_finite false 4503599627370496 (-52));
     Ok (S754_finite false 4503599627370496 (-53));
     Ok (S754_finite false 7036874417766400 (-46));
     Ok (S754_finite true 6755399441055744 (-52));
     Ok (S754_finite false 7205759403792794 (-56));
     Ok (S754_finite false 2024 (-1074));
     Ok (S754_finite false 4503599627370496 1);
     Ok (S754_infinity false); Ok (S754_infinity false);
     Ok (S754_infinity true); Ok S754_nan;
     Ok (S754_finite false 5910974510923776 (-49))].
Proof. vm_compute. reflexivity. Qed.

Example py_float_rounding :
  map py_float
      ["0.3"; "1e23"; "2.2250738585072014e-308"; "5e-324";
       "2.4703282292062328e-324"; "2.4703282292062327e-324";
       "1.7976931348623157e308"; "1.7976931348623159e308";
       "123456789012345678901234567890"; "8.5e-5"; "-1e-7";
       "3.141592653589793238462643383279"]
  = [Ok (S754_finite false 5404319552844595 (-54));
     Ok (S754_finite false 5960464477539062 24);
     Ok (S754_finite false 4503599627370496 (-1074));
     Ok (S754_finite false 1 (-1074));
     Ok (S754_finite false 1 (-1074));
     Ok (S754_zero false);
     Ok (S754_finite false 9007199254740991 971);
     Ok (S754_infinity false);
     Ok (S754_finite false 7017705969039166 44);
     Ok (S754_finite false 6271892985061248 (-66));
     Ok (S754_finite true 7555786372591432 (-76));
     Ok (S754_finite false 7074237752028440 (-51))].
Proof. vm_compute. reflexivity. Qed.

(** Whitespace around a number: [int] and [float] strip the blanks of the
    C locale and the no-break space, not the separators U+001C..U+001F
    that [str.split] also splits on. *)
Example conversions_and_whitespace :
  map (py_int (H := sample_platform))
      [" 5"; String "160" "5"; String "5" (String "133" "");
       String "011" "5"; String "028" "5"; String "5" (String "031" "")]
  = [Ok 5%Z; Ok 5%Z; Ok 5%Z; Ok 5%Z; Raise ValueError; Raise ValueError]
  /\ split (String "a" (String "028" (String "b" (String "133"
              (String "c" (String "160" "d"))))))
     = ["a"; "b"; "c"; "d"]
  /\ strip (String "028" (" x " ++ String "031" "")) = "x".
Proof. repeat split. Qed.

Example py_float_rejects :
  map py_float ["."; "1e"; "1e+"; "e5"; "--1"; "1 2"; "infx"; "infinit";
                "1_.5"; "_1"; "1_"; "0x10"; ""; "1,5"]
  = repeat (Raise ValueError) 14.
Proof. vm_compute. reflexivity. Qed.

Example nearest_double_samples :
  nearest_double 1 10 (S754_finite false 7205759403792794 (-56)) = true
  /\ nearest_double 1 10 (S754_finite false 7205759403792793 (-56)) = false
  /\ nearest_double 1 10 (S754_finite false 7205759403792795 (-56)) = false.
Proof. repeat split. Qed.

(** ** The parser *)

Lemma parse_two_rows_sample :
  parse_results (H := sample_platform) sample_table
  = Ok [ {| rank := 1; filename := "img1.jpg";
            distance := S754_zero false |};
         {| rank := 2; filename := "img2.jpg";
            distance := S754_finite false 8448752900947050 (-55) |} ]
  /\ nearest_double 2345 10000 (S754_finite false 8448752900947050 (-55))
     = true.
Proof.
  exact (parse_two_rows (H := sample_platform) "Rank  Filename   Distance"
           eq_refl eq_refl).
Defined.

(** C2 as stated fails: the row [-3 a.jpg -1.5] under a header yields a
    record whose rank is negative and whose distance is negative, and the
    row [0 b.jpg nan] one whose rank is zero and whose distance is not a
    number. *)
Lemma negative_rank_and_distance :
  exists r1 r2,
    parse_results (H := sample_platform)
      ("Rank Filename Distance" ++ nl ++ "-3 a.jpg -1.5" ++ nl
       ++ "0 b.jpg nan")
    = Ok [r1; r2]
    /\ rank r1 = (-3)%Z
    /\ distance r1 = S754_finite true 6755399441055744 (-52)
    /\ sign_bit (distance r1) = true
    /\ rank r2 = 0%Z
    /\ distance r2 = S754_nan.
Proof. do 2 eexists. split; [reflexivity|]. repeat split. Defined.

Lemma records_read_from_rows_sample :
  exists line,
    In line (split_on newline
               ("Rank Filename Distance" ++ nl ++ "-3 a.jpg -1.5" ++ nl
                ++ "0 b.jpg nan"))
    /\ read_from (H := sample_platform) line
         {| rank := -3; filename := "a.jpg";
            distance := S754_finite true 6755399441055744 (-52) |}.
Proof.
  apply (records_read_from_rows (H := sample_platform)
           ("Rank Filename Distance" ++ nl ++ "-3 a.jpg -1.5" ++ nl
            ++ "0 b.jpg nan")
           [ {| rank := -3; filename := "a.jpg";
                distance := S754_finite true 6755399441055744 (-52) |};
             {| rank := 0; filename := "b.jpg"; distance := S754_nan |} ]).
  - reflexivity.
  - simpl. left. reflexivity.
Defined.

(** C3 as stated fails twice.  A line that begins with ['='] but holds the
    three header words does not end the table: the row after it is read.
    A row that holds the three header words is not read as a row. *)
Lemma banner_with_header_words :
  startswith "=" "== Rank Filename Distance ==" = true
  /\ parse_results (H := sample_platform)
       ("Rank Filename Distance" ++ nl ++ "== Rank Filename Distance =="
        ++ nl ++ "1 a.jpg 0.5")
     = Ok [ {| rank := 1; filename := "a.jpg";
               distance := S754_finite false 4503599627370496 (-53) |} ]
  /\ row_record (H := sample_platform) "7 Rank_Filename_Distance.png 0.5"
     = [ {| rank := 7; filename := "Rank_Filename_Distance.png";
            distance := S754_finite false 4503599627370496 (-53) |} ]
  /\ parse_results (H := sample_platform)
       ("Rank Filename Distance" ++ nl
        ++ "7 Rank_Filename_Distance.png 0.5")
     = Ok [].
Proof. repeat split. Defined.

Lemma rows_until_banner_sample :
  parse_results (H := sample_platform)
    (join nl ["========"; "Query Results"; "========"; "";
              "Rank  Filename        Distance";
              "--------";
              "1     pic.0535.jpg    0.0000";
              "Rank Filename Distance";
              "";
              "2     pic.0123.jpg    0.5";
              "========";
              "3     pic.0001.jpg    0.75"])
  = Ok [ {| rank := 1; filename := "pic.0535.jpg";
            distance := S754_zero false |};
         {| rank := 2; filename := "pic.0123.jpg";
            distance := S754_finite false 4503599627370496 (-53) |} ].
Proof.
  exact (rows_until_banner (H := sample_platform)
           ["========"; "Query Results"; "========"; ""]
           ["--------"; "1     pic.0535.jpg    0.0000";
            "Rank Filename Distance"; ""; "2     pic.0123.jpg    0.5"]
           ["3     pic.0001.jpg    0.75"]
           "Rank  Filename        Distance" "========"
           eq_refl eq_refl eq_refl eq_refl eq_refl eq_refl).
Defined.

Lemma no_header_no_results_sample :
  parse_results (H := sample_platform) "Error: cannot open feature file"
  = Ok []
  /\ parse_and_display_results (H := sample_platform)
       "Error: cannot open feature file" "histogram" "histogram" sample_state
     = (Ok tt,
        {| gui := show (set_query_status_label (gui sample_state)
                          {| text := "No results found";
                             foreground := "red" |})
                       (showwarning "No Results" "No matching images found!");
           world := world sample_state;
           spawned := spawned sample_state |}).
Proof.
  exact (no_header_no_results (H := sample_platform)
           "Error: cannot open feature file" "histogram" "histogram"
           sample_state eq_refl).
Defined.


Example malformed_rows_sample :
  parse_results (H := sample_platform)
    (join nl ["Rank Filename Distance"; "1 a.jpg 0.25"; "2 b.jpg";
              "x c.jpg 0.5"; "3 d.jpg 0,75"; "4 e.jpg 1.0 extra"])
  = Ok [ {| rank := 1; filename := "a.jpg";
            distance := S754_finite false 4503599627370496 (-54) |};
         {| rank := 4; filename := "e.jpg";
            distance := S754_finite false 4503599627370496 (-52) |} ].
Proof. reflexivity. Qed.

(** ** Tool invocation *)

Example build_all_sample :
  let s := snd (build_all_databases (H := sample_platform) sample_state) in
  build_status_label (gui s)
  = {| text := ("Built 7/9 databases." ++ nl ++ "Failed: gabor, dnn")%string;
       foreground := "orange" |}
  /\ List.length (spawned s) = 9%nat
  /\ map (fun a => nth 2 (subprocess.cmd a) "") (spawned s)
     = map fst (initial_features_config (H := sample_platform)).
Proof. repeat split. Qed.

Lemma tool_outcome_classified_sample :
  fst (build_database (H := sample_platform) "gabor"
         "../bin/data/features/gabor_features.csv" sample_state) = Ok false
  /\ (exists s',
        find_matches (H := sample_platform) sample_state = (Ok tt, s')
        /\ map subprocess.timeout (spawned s') = [60%Z]
        /\ text (query_status_label (gui s'))
           = "Found 2 matches using histogram")
  /\ (exists s',
        find_matches (H := sample_platform)
          (handle (H := sample_platform) sample_state
                  (ImageChosen "D:/pictures/q.jpg"))
        = (Ok tt, s')
        /\ spawned s' = []
        /\ text (query_status_label (gui s')) = "Query error!").
Proof.
  pose proof (tool_outcome_classified (H := sample_platform) "gabor"
                "../bin/data/features/gabor_features.csv" sample_state)
    as [[_ Hbuild] Hquery].
  pose proof (tool_outcome_classified (H := sample_platform) "gabor"
                "../bin/data/features/gabor_features.csv"
                (handle (H := sample_platform) sample_state
                        (ImageChosen "D:/pictures/q.jpg")))
    as [_ Hother].
  split; [|split].
  - rewrite Hbuild. reflexivity.
  - destruct (Hquery "../bin/data/images/q.jpg"
                {| csv := "../bin/data/features/histogram_features.csv";
                   metric := "histogram";
                   description := "RGB Color Histogram" |}
                9%Z eq_refl eq_refl eq_refl eq_refl eq_refl)
      as (_ & s' & Hrun & Hspawned & _ & Hlabel).
    exists s'. split; [exact Hrun|]. split.
    + rewrite Hspawned. reflexivity.
    + rewrite Hlabel. reflexivity.
  - destruct (Hother "D:/pictures/q.jpg"
                {| csv := "../bin/data/features/histogram_features.csv";
                   metric := "histogram";
                   description := "RGB Color Histogram" |}
                9%Z eq_refl eq_refl eq_refl eq_refl eq_refl)
      as (_ & s' & Hrun & Hspawned & _ & Hlabel).
    exists s'. split; [exact Hrun|]. split.
    + rewrite Hspawned. reflexivity.
    + rewrite Hlabel. reflexivity.
Defined.

(** * Further properties *)

Section FurtherProperties.

Context `{Platform}.

(** ** More on the parsing loop *)

Lemma no_header_forallb (lines : list string) :
  existsb is_header lines = false ->
  forallb (fun l => negb (is_header l)) lines = true.
Proof.
  induction lines as [|l lines IH]; [reflexivity|]. simpl.
  intros He. apply orb_false_iff in He as [-> He]. now rewrite IH.
Qed.

Lemma is_line_app (a b : list string) :
  forallb is_line (a ++ b) = true ->
  forallb is_line a = true /\ forallb is_line b = true.
Proof. rewrite forallb_app. apply andb_true_iff. Qed.

Lemma loop_body_next_in_results (line : string) (st st' : LoopState) :
  loop_body line st = Ok (Next, st') ->
  in_results st' = in_results st || is_header line.
Proof.
  destruct (is_header line) eqn:Hh.
  - rewrite loop_body_header by assumption. intros [= <-].
    now rewrite orb_true_r.
  - destruct (in_results st) eqn:Hi.
    + destruct (startswith "=" line) eqn:Hs.
      * rewrite loop_body_banner by assumption. discriminate.
      * rewrite loop_body_row by assumption. now intros [= <-].
    + rewrite loop_body_outside by assumption. intros [= <-].
      now rewrite Hi.
Qed.

Lemma loop_body_one_more (line : string) (st st' : LoopState) (c : Control) :
  loop_body line st = Ok (c, st') ->
  (List.length (results st') <= List.length (results st) + 1)%nat.
Proof.
  destruct (is_header line) eqn:Hh.
  - rewrite loop_body_header by assumption. intros [= <- <-]. simpl. lia.
  - destruct (in_results st) eqn:Hi.
    + destruct (startswith "=" line) eqn:Hs.
      * rewrite loop_body_banner by assumption. intros [= <- <-]. lia.
      * rewrite loop_body_row by assumption. intros [= <- <-].
        cbn [results]. rewrite length_app. unfold row_record.
        destruct (parse_row (split line)); simpl; lia.
    + rewrite loop_body_outside by assumption. intros [= <- <-]. lia.
Qed.

Lemma for_lines_one_per_line (lines : list string) :
  forall st st', for_lines lines st = Ok st' ->
  (List.length (results st')
   <= List.length (results st) + List.length lines)%nat.
Proof.
  induction lines as [|l lines IH]; intros st st'; simpl.
  - intros [= <-]. lia.
  - destruct (loop_body l st) as [[c st1]|] eqn:Hb; [|discriminate].
    pose proof (loop_body_one_more _ _ _ _ Hb). simpl. destruct c.
    + intros Hf. specialize (IH _ _ Hf). lia.
    + intros [= <-]. lia.
Qed.

Lemma for_lines_fewer_than_lines (lines : list string) :
  forall st st', in_results st = false -> for_lines lines st = Ok st' ->
  (List.length (results st')
   <= List.length (results st) + (List.length lines - 1))%nat.
Proof.
  induction lines as [|l lines IH]; intros st st' Hi; simpl.
  - intros [= <-]. lia.
  - destruct (is_header l) eqn:Hh.
    + rewrite loop_body_header by assumption. simpl. intros Hf.
      apply for_lines_one_per_line in Hf. simpl in Hf. lia.
    + rewrite loop_body_outside by assumption. simpl. intros Hf.
      specialize (IH _ _ Hi Hf). lia.
Qed.

Lemma for_lines_after_banner (a post : list string) (banner : string) :
  startswith "=" banner = true -> is_header banner = false ->
  forall st, in_results st || existsb is_header a = true ->
  for_lines (a ++ banner :: post) st = for_lines (a ++ [banner]) st.
Proof.
  intros Hb Hh. induction a as [|l a IH]; intros st Hin.
  - simpl in Hin. rewrite orb_false_r in Hin. simpl.
    now rewrite loop_body_banner.
  - simpl. destruct (loop_body l st) as [[[] st1]|] eqn:Hl; simpl;
      try reflexivity.
    apply IH. rewrite (loop_body_next_in_results _ _ _ Hl).
    simpl in Hin. now rewrite <- orb_assoc.
Qed.

(** ** Lines that end in whitespace *)

Lemma prefix_snoc (w s : string) (c : ascii) :
  has_char c w = false ->
  prefix w (s ++ String c "") = prefix w s.
Proof.
  revert s; induction w as [|a w IH]; intros s Hc.
  - destruct s; reflexivity.
  - simpl in Hc. apply orb_false_iff in Hc as [Hac Hw].
    destruct s as [|b s]; simpl.
    + destruct (ascii_dec a c) as [->|]; [|reflexivity].
      rewrite Ascii.eqb_refl in Hac. discriminate.
    + destruct (ascii_dec a b); [now apply IH | reflexivity].
Qed.

Lemma contains_snoc (w s : string) (c : ascii) :
  has_char c w = false ->
  contains w (s ++ String c "") = contains w s.
Proof.
  intros Hc. induction s as [|b s IH].
  - cbn [append contains]. change (String c "") with ("" ++ String c "")%string.
    rewrite prefix_snoc by assumption. now destruct (prefix w "").
  - cbn [append contains]. rewrite IH.
    change (String b (s ++ String c ""))
      with (String b s ++ String c "")%string.
    now rewrite prefix_snoc.
Qed.

Lemma space_not_in_words (c : ascii) :
  isspace c = true ->
  has_char c "Rank" = false /\ has_char c "Filename" = false
  /\ has_char c "Distance" = false /\ has_char c "=" = false.
Proof.
  destruct c as [[] [] [] [] [] [] [] []]; intros Hc;
    first [discriminate Hc | repeat split].
Qed.

Lemma nonempty_strip (s : string) : nonempty (strip s) = nonempty (lstrip s).
Proof.
  unfold strip. induction s as [|c s IH]; simpl; [reflexivity|].
  destruct (isspace c) eqn:Hc; [exact IH|]. simpl. now rewrite Hc.
Qed.

Lemma lstrip_snoc (s : string) (c : ascii) :
  isspace c = true ->
  nonempty (lstrip (s ++ String c "")) = nonempty (lstrip s).
Proof.
  intros Hc. induction s as [|b s IH]; simpl.
  - now rewrite Hc.
  - destruct (isspace b); [exact IH | reflexivity].
Qed.

Lemma split_from_snoc (s : string) (c : ascii) :
  isspace c = true ->
  forall tok, split_from (s ++ String c "") tok = split_from s tok.
Proof.
  intros Hc. induction s as [|b s IH]; intros tok; simpl.
  - rewrite Hc. now destruct (nonempty tok).
  - destruct (isspace b); [destruct (nonempty tok)|]; now rewrite IH.
Qed.

Lemma loop_body_snoc (line : string) (c : ascii) (st : LoopState) :
  isspace c = true ->
  loop_body (line ++ String c "") st = loop_body line st.
Proof.
  intros Hc. destruct (space_not_in_words c Hc) as (Hr & Hf & Hd & He).
  unfold loop_body, is_header, startswith, split.
  rewrite !contains_snoc, prefix_snoc, split_from_snoc by assumption.
  now rewrite !nonempty_strip, lstrip_snoc.
Qed.

Lemma is_line_snoc (line : string) (c : ascii) :
  Ascii.eqb c newline = false -> is_line line = true ->
  is_line (line ++ String c "") = true.
Proof.
  unfold is_line. intros Hc. induction line as [|b line IH]; simpl.
  - now rewrite Hc.
  - intros Hl. apply negb_true_iff, orb_false_iff in Hl as [-> Hl].
    apply IH. now rewrite Hl.
Qed.

Lemma for_lines_crlf (lines : list string) :
  forallb is_line lines = true ->
  forall st,
    for_lines (split_on newline (join crlf lines)) st
    = for_lines (split_on newline (join nl lines)) st.
Proof.
  induction lines as [|x lines IH]; intros Hall st; [reflexivity|].
  simpl in Hall. apply andb_true_iff in Hall as [Hx Hall].
  destruct lines as [|y lines]; [reflexivity|].
  change (join crlf (x :: y :: lines))
    with (x ++ crlf ++ join crlf (y :: lines))%string.
  change (join nl (x :: y :: lines))
    with (x ++ nl ++ join nl (y :: lines))%string.
  unfold crlf at 1. cbn [append].
  change (x ++ String "013" (nl ++ join crlf (y :: lines)))%string
    with (x ++ String "013" ("" ++ nl ++ join crlf (y :: lines)))%string.
  replace (x ++ String "013" ("" ++ nl ++ join crlf (y :: lines)))%string
    with ((x ++ String "013" "") ++ nl ++ join crlf (y :: lines))%string
    by (rewrite append_assoc; reflexivity).
  rewrite !split_on_cons_line;
    [|assumption | now apply is_line_snoc].
  cbn [for_lines]. rewrite loop_body_snoc by reflexivity.
  destruct (loop_body x st) as [[[] st1]|]; simpl;
    [now apply IH | reflexivity | reflexivity].
Qed.

(** ** The result-table parser: further results *)

(** X1. When no banner line follows the table, the rows are read up to the
    end of the text: every line after the header that is not itself a
    header line yields what it holds as a row. *)
Theorem rows_until_end (pre rows : list string) (header : string) :
  forallb is_line (pre ++ header :: rows) = true ->
  existsb is_header pre = false ->
  is_header header = true ->
  forallb (fun l => is_header l || negb (startswith "=" l)) rows = true ->
  parse_results (join nl (pre ++ header :: rows))
  = Ok (flat_map (fun l => if is_header l then [] else row_record l) rows).
Proof.
  intros Hlines Hpre Hh Hrows.
  rewrite parse_results_join; [|destruct pre; discriminate | assumption].
  rewrite for_lines_outside;
    [|now apply no_header_forallb | reflexivity].
  cbn [for_lines]. rewrite loop_body_header by assumption.
  cbn [bind start results]. rewrite <- (app_nil_r rows) at 1.
  rewrite for_lines_rows by assumption. reflexivity.
Qed.

(** X2. Whatever the tool prints before the header line is ignored, be it
    banners, rows or blank lines: the text parses as the text from the
    header on. *)
Theorem preamble_ignored (pre rest : list string) :
  rest <> [] ->
  forallb is_line (pre ++ rest) = true ->
  existsb is_header pre = false ->
  parse_results (join nl (pre ++ rest)) = parse_results (join nl rest).
Proof.
  intros Hne Hlines Hpre.
  destruct (is_line_app _ _ Hlines) as [_ Hrest].
  rewrite !parse_results_join; try assumption.
  - rewrite for_lines_outside;
      [reflexivity | now apply no_header_forallb | reflexivity].
  - destruct pre; [assumption | discriminate].
Qed.

(** X3. Once a header line has been seen, whatever follows a line that
    begins with ['='] and is not a header line has no influence on the
    records. *)
Theorem after_banner_ignored (before post : list string) (banner : string) :
  forallb is_line (before ++ banner :: post) = true ->
  existsb is_header before = true ->
  startswith "=" banner = true -> is_header banner = false ->
  parse_results (join nl (before ++ banner :: post))
  = parse_results (join nl (before ++ [banner])).
Proof.
  intros Hlines Hhdr Hb Hh.
  destruct (is_line_app _ _ Hlines) as [Hbefore Hrest].
  simpl in Hrest. apply andb_true_iff in Hrest as [Hbanner _].
  rewrite !parse_results_join.
  - now rewrite for_lines_after_banner.
  - destruct before; discriminate.
  - rewrite forallb_app, Hbefore. simpl. now rewrite Hbanner.
  - destruct before; discriminate.
  - assumption.
Qed.

(** X4. A text with CR LF line ends gives the same records as the same
    lines with LF line ends: the carriage return left at the end of each
    line is whitespace to every test of the loop. *)
Theorem crlf_same_records (lines : list string) :
  forallb is_line lines = true ->
  parse_results (join crlf lines) = parse_results (join nl lines).
Proof.
  intros Hall. unfold parse_results. now rewrite for_lines_crlf.
Qed.

(** X5. The parser yields at most one record per line and none for the
    header line: a text always has more lines than it yields records. *)
Theorem fewer_records_than_lines (output : string) :
  exists rs,
    parse_results output = Ok rs
    /\ (List.length rs < List.length (split_on newline output))%nat.
Proof.
  unfold parse_results.
  destruct (for_lines_total (split_on newline output) start) as [st Hf].
  rewrite Hf. exists (results st). split; [reflexivity|].
  pose proof (for_lines_fewer_than_lines _ start st eq_refl Hf) as Hlen.
  pose proof (split_on_not_nil newline output) as Hne.
  destruct (split_on newline output); [congruence|]. simpl in *. lia.
Qed.

(** ** What a method leaves alone *)

Lemma keeps_part_ret {A B : Type} (part : Gui -> B) (a : A) :
  keeps_part part (ret a).
Proof. intros s; reflexivity. Qed.

Lemma keeps_part_lift {A B : Type} (part : Gui -> B) (r : Result A) :
  keeps_part part (lift r).
Proof. intros s; reflexivity. Qed.

Lemma keeps_part_get_gui {B : Type} (part : Gui -> B) :
  keeps_part part get_gui.
Proof. intros s; reflexivity. Qed.

Lemma keeps_part_path_exists {B : Type} (part : Gui -> B) (p : string) :
  keeps_part part (path_exists p).
Proof. intros s; reflexivity. Qed.

Lemma keeps_part_subprocess_run {B : Type} (part : Gui -> B)
    (a : subprocess.RunArgs) :
  keeps_part part (subprocess_run a).
Proof.
  intros s. unfold subprocess_run. now destruct (spawn a (world s)).
Qed.

Lemma keeps_part_update_gui {B : Type} (part : Gui -> B) (f : Gui -> Gui) :
  (forall g, part (f g) = part g) -> keeps_part part (update_gui f).
Proof. intros Hf s. apply Hf. Qed.

Lemma keeps_part_bindM {A B C : Type} (part : Gui -> C) (c : M A)
    (k : A -> M B) :
  keeps_part part c -> (forall a, keeps_part part (k a)) ->
  keeps_part part (bindM c k).
Proof.
  intros Hc Hk s. unfold bindM. specialize (Hc s).
  destruct (c s) as [[a|e] s1]; cbn [snd] in *; [|exact Hc].
  now rewrite Hk.
Qed.

Lemma keeps_part_try_catch {A C : Type} (part : Gui -> C) (body : M A)
    (handler : Exn -> M A) :
  keeps_part part body -> (forall e, keeps_part part (handler e)) ->
  keeps_part part (try_catch body handler).
Proof.
  intros Hb Hh s. unfold try_catch. specialize (Hb s).
  destruct (body s) as [[a|e] s1]; cbn [snd] in *; [exact Hb|].
  now rewrite Hh.
Qed.

Ltac keeps_part :=
  repeat first
    [ apply keeps_part_ret | apply keeps_part_lift | apply keeps_part_get_gui
    | apply keeps_part_path_exists | apply keeps_part_subprocess_run
    | apply keeps_part_update_gui; intros ?; reflexivity
    | apply keeps_part_bindM; [|intros ?]
    | apply keeps_part_try_catch; [|intros ?]
    | match goal with
      | |- keeps_part _ (if ?b then _ else _) => destruct b
      | |- keeps_part _ (match ?x with _ => _ end) => destruct x
      end ].

Lemma selection_kept_parse_and_display (output feature metric : string) :
  keeps_part selection (parse_and_display_results output feature metric).
Proof.
  unfold parse_and_display_results, display_results, clear_results,
    config_query_status, messagebox. keeps_part.
Qed.

Lemma selection_kept_build_database (feature_type csv_path : string) :
  keeps_part selection (build_database feature_type csv_path).
Proof. unfold build_database. keeps_part. Qed.

Lemma selection_kept_build_all_loop (items : list (string * FeatureConfig)) :
  forall n failed, keeps_part selection (build_all_loop items n failed).
Proof.
  induction items as [|[name config] items IH]; intros n failed;
    cbn [build_all_loop]; [apply keeps_part_ret|].
  apply keeps_part_bindM; [apply selection_kept_build_database|].
  intros []; apply IH.
Qed.

Lemma selection_kept_buttons_and_edits (ev : Event) :
  (forall name, ev <> FeatureSelected name) ->
  keeps_part selection (callback ev).
Proof.
  intros Hev. destruct ev; cbn [callback].
  - now destruct (Hev name).
  - keeps_part.
  - unfold select_image, show_query_preview, clear_results. keeps_part.
  - unfold build_all_databases, config_build_status, messagebox.
    apply keeps_part_bindM; [keeps_part|]. intros _.
    apply keeps_part_bindM; [keeps_part|]. intros g.
    apply keeps_part_bindM; [apply selection_kept_build_all_loop|].
    intros [n failed]. keeps_part.
  - unfold build_selected_database, config_build_status, messagebox.
    apply keeps_part_bindM; [keeps_part|]. intros g.
    apply keeps_part_bindM; [keeps_part|]. intros config.
    apply keeps_part_bindM; [keeps_part|]. intros _.
    apply keeps_part_bindM; [apply selection_kept_build_database|].
    intros b. keeps_part.
  - unfold find_matches, config_query_status, messagebox.
    apply keeps_part_bindM; [keeps_part|]. intros g.
    destruct (selected_image_path g) as [[|c path]|];
      [keeps_part| |keeps_part].
    apply keeps_part_bindM; [keeps_part|]. intros config.
    apply keeps_part_bindM; [keeps_part|]. intros top_n.
    apply keeps_part_bindM; [keeps_part|]. intros found.
    destruct (negb found); [keeps_part|].
    apply keeps_part_bindM; [keeps_part|]. intros _.
    apply keeps_part_try_catch.
    + apply keeps_part_bindM; [keeps_part|]. intros rel.
      apply keeps_part_bindM; [keeps_part|]. intros p.
      destruct (subprocess.returncode p =? 0)%Z;
        [apply selection_kept_parse_and_display | keeps_part].
    + intros e. keeps_part.
Qed.

Lemma selection_shown_ext (g g' : Gui) :
  selection g' = selection g -> selection_shown g -> selection_shown g'.
Proof.
  unfold selection, selection_shown. intros [= Hc Hf Hm Hd] Hs config.
  rewrite Hc, Hf, Hm, Hd. apply Hs.
Qed.

Lemma selection_shown_handle (s : State) (ev : Event) :
  selection_shown (gui s) -> selection_shown (gui (handle s ev)).
Proof.
  intros Hs. unfold handle.
  destruct ev as [name| | | | |];
    try (apply (selection_shown_ext (gui s)); [|exact Hs];
         match goal with
         | |- context [callback ?ev] =>
             apply (selection_kept_buttons_and_edits ev); intros ?;
             discriminate
         end).
  unfold callback, on_feature_changed, bindM, update_gui, get_gui, lift.
  cbn [gui features_config feature_var set_feature_var snd].
  destruct (dict_get (features_config (gui s)) name) as [config|e] eqn:Hget;
    cbn; intros config'; cbn; rewrite Hget; [|discriminate].
  intros [= <-]. split; reflexivity.
Qed.

(** X6. Whatever the user does, the metric field and the description
    show what the registry pairs with the feature selected in the
    drop-down. *)
Theorem selection_always_shown (w : World) (evs : list Event) :
  selection_shown (gui (run_events evs (init w))).
Proof.
  assert (Hinit : selection_shown (gui (init w))).
  { intros config. cbn. intros [= <-]. split; reflexivity. }
  generalize dependent (init w). induction evs as [|ev evs IH]; intros s Hs;
    [exact Hs|].
  cbn [run_events fold_left]. apply IH. now apply selection_shown_handle.
Qed.

(** ** Which processes a method starts *)

Lemma quiet_ret {A : Type} (a : A) : spawns_nothing (ret a).
Proof. intros s; split; reflexivity. Qed.

Lemma quiet_lift {A : Type} (r : Result A) : spawns_nothing (lift r).
Proof. intros s; split; reflexivity. Qed.

Lemma quiet_get_gui : spawns_nothing get_gui.
Proof. intros s; split; reflexivity. Qed.

Lemma quiet_path_exists (p : string) : spawns_nothing (path_exists p).
Proof. intros s; split; reflexivity. Qed.

Lemma quiet_update_gui (f : Gui -> Gui) : spawns_nothing (update_gui f).
Proof. intros s; split; reflexivity. Qed.

Lemma quiet_bindM {A B : Type} (c : M A) (k : A -> M B) :
  spawns_nothing c -> (forall a, spawns_nothing (k a)) ->
  spawns_nothing (bindM c k).
Proof.
  intros Hc Hk s. unfold bindM. destruct (Hc s) as [Hw Hs].
  destruct (c s) as [[a|e] s1]; cbn [snd] in *; [|now split].
  destruct (Hk a s1) as [Hw' Hs']. split; congruence.
Qed.

Ltac quiet :=
  repeat first
    [ apply quiet_ret | apply quiet_lift | apply quiet_get_gui
    | apply quiet_path_exists | apply quiet_update_gui
    | apply quiet_bindM; [|intros ?]
    | match goal with
      | |- spawns_nothing (if ?b then _ else _) => destruct b
      | |- spawns_nothing (match ?x with _ => _ end) => destruct x
      end ].

Lemma quiet_on_feature_changed : spawns_nothing on_feature_changed.
Proof. unfold on_feature_changed. quiet. Qed.

Lemma quiet_select_image (p : string) : spawns_nothing (select_image p).
Proof. unfold select_image, show_query_preview, clear_results. quiet. Qed.

Lemma quiet_parse_and_display (output feature metric : string) :
  spawns_nothing (parse_and_display_results output feature metric).
Proof.
  unfold parse_and_display_results, display_results, clear_results,
    config_query_status, messagebox. quiet.
Qed.

Lemma spawns_only_quiet {A : Type} (ok : subprocess.RunArgs -> bool)
    (m : M A) :
  spawns_nothing m -> spawns_only ok m.
Proof.
  intros Hm s. exists []. destruct (Hm s) as [_ ->].
  now rewrite app_nil_r.
Qed.

Lemma spawns_only_run (ok : subprocess.RunArgs -> bool)
    (a : subprocess.RunArgs) :
  ok a = true -> spawns_only ok (subprocess_run a).
Proof.
  intros Ha s. exists [a]. unfold subprocess_run.
  destruct (spawn a (world s)) as [r w]. cbn. now rewrite Ha.
Qed.

Lemma spawns_only_bindM {A B : Type} (ok : subprocess.RunArgs -> bool)
    (c : M A) (k : A -> M B) :
  spawns_only ok c -> (forall a, spawns_only ok (k a)) ->
  spawns_only ok (bindM c k).
Proof.
  intros Hc Hk s. unfold bindM. destruct (Hc s) as (new & Hs & Hok).
  destruct (c s) as [[a|e] s1]; cbn [snd] in *; [|now exists new].
  destruct (Hk a s1) as (new' & Hs' & Hok').
  exists (new ++ new'). rewrite Hs', Hs, app_assoc, forallb_app, Hok, Hok'.
  now split.
Qed.

Lemma spawns_only_try_catch {A : Type} (ok : subprocess.RunArgs -> bool)
    (body : M A) (handler : Exn -> M A) :
  spawns_only ok body -> (forall e, spawns_only ok (handler e)) ->
  spawns_only ok (try_catch body handler).
Proof.
  intros Hb Hh s. unfold try_catch. destruct (Hb s) as (new & Hs & Hok).
  destruct (body s) as [[a|e] s1]; cbn [snd] in *; [now exists new|].
  destruct (Hh e s1) as (new' & Hs' & Hok').
  exists (new ++ new'). rewrite Hs', Hs, app_assoc, forallb_app, Hok, Hok'.
  now split.
Qed.

Lemma tool_run_build (feature_type csv_path : string) :
  tool_run (build_args feature_type csv_path) = true.
Proof.
  unfold tool_run, build_args. cbn. now rewrite String.eqb_refl.
Qed.

Lemma tool_run_query (image csv_file feature metric : string) (top_n : Z) :
  tool_run (query_args image csv_file feature metric top_n) = true.
Proof.
  unfold tool_run, query_args. cbn. rewrite String.eqb_refl.
  destruct (String.eqb _ _); reflexivity.
Qed.

Lemma tools_build_database (feature_type csv_path : string) :
  spawns_only tool_run (build_database feature_type csv_path).
Proof.
  unfold build_database. apply spawns_only_try_catch.
  - apply spawns_only_bindM;
      [apply spawns_only_run, tool_run_build|].
    intros p. apply spawns_only_quiet. quiet.
  - intros e. apply spawns_only_quiet. quiet.
Qed.

Lemma tools_build_all_loop (items : list (string * FeatureConfig)) :
  forall n failed, spawns_only tool_run (build_all_loop items n failed).
Proof.
  induction items as [|[name config] items IH]; intros n failed;
    cbn [build_all_loop]; [apply spawns_only_quiet, quiet_ret|].
  apply spawns_only_bindM; [apply tools_build_database|].
  intros []; apply IH.
Qed.

Lemma tools_callback (ev : Event) : spawns_only tool_run (callback ev).
Proof.
  destruct ev; cbn [callback].
  - apply spawns_only_quiet.
    apply quiet_bindM; [quiet | intros _; apply quiet_on_feature_changed].
  - apply spawns_only_quiet. quiet.
  - apply spawns_only_quiet, quiet_select_image.
  - unfold build_all_databases, config_build_status, messagebox.
    apply spawns_only_bindM; [apply spawns_only_quiet; quiet|]. intros _.
    apply spawns_only_bindM; [apply spawns_only_quiet; quiet|]. intros g.
    apply spawns_only_bindM; [apply tools_build_all_loop|].
    intros [n failed]. apply spawns_only_quiet. quiet.
  - unfold build_selected_database, config_build_status, messagebox.
    apply spawns_only_bindM; [apply spawns_only_quiet; quiet|]. intros g.
    apply spawns_only_bindM; [apply spawns_only_quiet; quiet|].
    intros config.
    apply spawns_only_bindM; [apply spawns_only_quiet; quiet|]. intros _.
    apply spawns_only_bindM; [apply tools_build_database|].
    intros b. apply spawns_only_quiet. quiet.
  - unfold find_matches, config_query_status, messagebox.
    apply spawns_only_bindM; [apply spawns_only_quiet; quiet|]. intros g.
    destruct (selected_image_path g) as [[|c path]|];
      [apply spawns_only_quiet; quiet| |apply spawns_only_quiet; quiet].
    apply spawns_only_bindM; [apply spawns_only_quiet; quiet|].
    intros config.
    apply spawns_only_bindM; [apply spawns_only_quiet; quiet|].
    intros top_n.
    apply spawns_only_bindM; [apply spawns_only_quiet; quiet|].
    intros found.
    destruct (negb found); [apply spawns_only_quiet; quiet|].
    apply spawns_only_bindM; [apply spawns_only_quiet; quiet|]. intros _.
    apply spawns_only_try_catch.
    + apply spawns_only_bindM; [apply spawns_only_quiet; quiet|].
      intros rel.
      apply spawns_only_bindM;
        [apply spawns_only_run, tool_run_query|].
      intros p. apply spawns_only_quiet.
      destruct (subprocess.returncode p =? 0)%Z;
        [apply quiet_parse_and_display | quiet].
    + intros e. apply spawns_only_quiet. quiet.
Qed.

(** X7. Every process the program ever starts is a run of one of its two
    tools, made in the directory of the executables with the output
    captured as text and under a time limit: 300 seconds for the builder,
    60 seconds for the query tool. *)
Theorem only_tool_runs (w : World) (evs : list Event) :
  forallb tool_run (spawned (run_events evs (init w))) = true.
Proof.
  assert (Hinit : forallb tool_run (spawned (init w)) = true).
  { unfold init. destruct (quiet_on_feature_changed
                             {| gui := created; world := w; spawned := [] |})
      as [_ ->]. reflexivity. }
  generalize dependent (init w). induction evs as [|ev evs IH]; intros s Hs;
    [exact Hs|].
  cbn [run_events fold_left]. apply IH. unfold handle.
  destruct (tools_callback ev s) as (new & -> & Hnew).
  now rewrite forallb_app, Hs, Hnew.
Qed.

(** X8. Choosing a feature, editing the top-N field and choosing an image
    start no process and leave the outside world alone: only the three
    buttons run a tool. *)
Theorem selections_start_nothing (s : State) (name value filepath : string) :
  (world (handle s (FeatureSelected name)) = world s
   /\ spawned (handle s (FeatureSelected name)) = spawned s)
  /\ (world (handle s (TopNEdited value)) = world s
      /\ spawned (handle s (TopNEdited value)) = spawned s)
  /\ (world (handle s (ImageChosen filepath)) = world s
      /\ spawned (handle s (ImageChosen filepath)) = spawned s).
Proof.
  unfold handle. cbn [callback]. split; [|split].
  - apply quiet_bindM; [quiet | intros _; apply quiet_on_feature_changed].
  - apply quiet_update_gui.
  - apply quiet_select_image.
Qed.

(** ** Queries that are not made *)

(** X9. With no image selected, "Find Matching Images" only shows the
    error box that asks for one: no tool is run and nothing else
    changes. *)
Theorem find_matches_needs_image (s : State) :
  selected_image_path (gui s) = None \/ selected_image_path (gui s) = Some "" ->
  find_matches s
  = (Ok tt,
     {| gui := show (gui s)
                 (showerror "Error" "Please select a query image first!");
        world := world s;
        spawned := spawned s |}).
Proof.
  intros Hsel. unfold find_matches, bindM at 1, get_gui.
  destruct Hsel as [-> | ->]; reflexivity.
Qed.

(** X10. When the feature file of the selected feature does not exist,
    the query tool is not run: the user is told to build the database
    first, and the status line and the results stay as they were. *)
Theorem find_matches_needs_database (s : State) (path : string)
    (config : FeatureConfig) (top_n : Z) :
  selected_image_path (gui s) = Some path -> nonempty path = true ->
  dict_get (features_config (gui s)) (feature_var (gui s)) = Ok config ->
  py_int (topn_var (gui s)) = Ok top_n ->
  os_path_exists (csv config) (world s) = false ->
  find_matches s
  = (Ok tt,
     {| gui := show (gui s)
                 (showerror "Database Not Found"
                    ("Database '" ++ os_path_basename (csv config)
                     ++ "' not found!" ++ nl ++ nl
                     ++ "Please build the database first.")%string);
        world := world s;
        spawned := spawned s |}).
Proof.
  intros Hpath Hne Hcfg Htop Hex.
  unfold find_matches, bindM at 1, get_gui. rewrite Hpath.
  destruct path as [|c path]; [discriminate|].
  unfold bindM at 1, lift. rewrite Hcfg.
  unfold bindM at 1. rewrite Htop.
  unfold bindM at 1, path_exists. rewrite Hex. reflexivity.
Qed.

(** X11. The feature lookup and the conversion of the top-N field stand
    outside the [try]: with an image selected, a feature that is not in
    the registry or a top-N text that [int] rejects makes [find_matches]
    raise that exception, before any tool is run and with nothing
    changed. *)
Theorem find_matches_raises (s : State) (path : string) (e : Exn) :
  selected_image_path (gui s) = Some path -> nonempty path = true ->
  (config <- dict_get (features_config (gui s)) (feature_var (gui s)) ;;
   py_int (topn_var (gui s))) = Raise e ->
  find_matches s = (Raise e, s).
Proof.
  intros Hpath Hne Hraise.
  unfold find_matches, bindM at 1, get_gui. rewrite Hpath.
  destruct path as [|c path]; [discriminate|].
  unfold bindM at 1, lift.
  destruct (dict_get (features_config (gui s)) (feature_var (gui s)))
    as [config|e']; cbn [bind] in Hraise.
  - unfold bindM at 1. rewrite Hraise. reflexivity.
  - now injection Hraise as ->.
Qed.

(** X12. [find_matches] replaces what the results frame shows only when
    the query tool ends with exit code zero and its output holds at least
    one record; after a failed, timed-out or empty query the frame still
    shows what it showed before. *)
Theorem results_replaced_only_by_records (s : State) :
  results_view (gui (snd (find_matches s))) = results_view (gui s)
  \/ exists config a p r rs,
       dict_get (features_config (gui s)) (feature_var (gui s)) = Ok config
       /\ subprocess.timeout a = 60%Z
       /\ fst (spawn a (world s)) = Ok p
       /\ subprocess.returncode p = 0%Z
       /\ parse_results (subprocess.stdout p) = Ok (r :: rs)
       /\ results_view (gui (snd (find_matches s)))
          = ResultGrid (r :: rs) (feature_var (gui s)) (metric config).
Proof.
  remember (find_matches s) as st eqn:Hst. revert Hst.
  unfold find_matches, bindM at 1, get_gui.
  destruct (selected_image_path (gui s)) as [[|c path]|];
    [intros ->; left; reflexivity | | intros ->; left; reflexivity].
  unfold bindM at 1, lift.
  destruct (dict_get (features_config (gui s)) (feature_var (gui s)))
    as [config|e] eqn:Hcfg; [|intros ->; left; reflexivity].
  unfold bindM at 1.
  destruct (py_int (topn_var (gui s))) as [top_n|e];
    [|intros ->; left; reflexivity].
  unfold bindM at 1, path_exists.
  destruct (os_path_exists (csv config) (world s));
    [|intros ->; left; reflexivity]. cbn [negb].
  unfold bindM at 1, config_query_status at 1, update_gui at 1.
  unfold try_catch, bindM at 1, lift, checked_relpath.
  destruct (os_path_relpath_raises (String c path) exe_dir) as [e|];
    [destruct e; intros ->; left; reflexivity|].
  unfold bindM at 1, subprocess_run. cbn [world gui spawned].
  set (a := query_args _ _ _ _ _).
  destruct (spawn a (world s)) as [[p|e] w] eqn:Hspawn.
  - destruct (subprocess.returncode p =? 0)%Z eqn:Hrc;
      [|intros ->; left; reflexivity].
    unfold parse_and_display_results, bindM at 1, lift.
    destruct (parse_results_total (subprocess.stdout p)) as [rs Hrs].
    rewrite Hrs. destruct rs as [|r rs]; [intros ->; left; reflexivity|].
    intros ->. right. exists config, a, p, r, rs. rewrite Hspawn.
    repeat split; try assumption; try reflexivity.
    now apply Z.eqb_eq.
  - destruct e; intros ->; left; reflexivity.
Qed.

(** ** Building the selected feature *)

(** X13. "Build Database (Selected Feature)" runs the builder once, for
    the selected feature and its feature file, and reports success exactly
    when the process ends with exit code zero; when the selected feature
    is not in the registry it raises [KeyError] at the lookup, runs
    nothing and changes nothing. *)
Theorem build_selected_runs_one_build (s : State) :
  let feature := feature_var (gui s) in
  match dict_get (features_config (gui s)) feature with
  | Raise e => e = KeyError /\ build_selected_database s = (Raise e, s)
  | Ok config =>
      let a := build_args feature (csv config) in
      let ok := match fst (spawn a (world s)) with
                | Ok p => (subprocess.returncode p =? 0)%Z
                | Raise _ => false
                end in
      exists s',
        build_selected_database s = (Ok tt, s')
        /\ spawned s' = spawned s ++ [a]
        /\ world s' = snd (spawn a (world s))
        /\ build_status_label (gui s')
           = (if ok
              then {| text := ("Database '" ++ os_path_basename (csv config)
                               ++ "' built successfully!")%string;
                      foreground := "green" |}
              else {| text := ("Failed to build " ++ feature
                               ++ " database")%string;
                      foreground := "red" |})
        /\ dialogs (gui s')
           = dialogs (gui s)
             ++ [if ok
                 then showinfo "Success"
                        (feature ++ " database built successfully!")%string
                 else showerror "Error"
                        ("Failed to build " ++ feature ++ " database." ++ nl
                         ++ "Check console for details.")%string]
  end.
Proof.
  intros feature.
  destruct (dict_get (features_config (gui s)) feature) as [config|e] eqn:Hcfg.
  - intros a ok.
    unfold build_selected_database, bindM at 1, get_gui.
    unfold bindM at 1, lift. fold feature. rewrite Hcfg.
    unfold bindM at 1, config_build_status at 1, update_gui at 1.
    unfold bindM at 1. rewrite build_database_run.
    cbn [world gui spawned]. fold a. fold ok.
    destruct ok; eexists; (split; [reflexivity|]); cbn; repeat split.
  - split.
    + clear -Hcfg. induction (features_config (gui s)) as [|[k v] d IH];
        simpl in Hcfg; [congruence|].
      destruct (String.eqb feature k); [discriminate | now apply IH].
    + unfold build_selected_database, bindM at 1, get_gui.
      unfold bindM at 1, lift. fold feature. now rewrite Hcfg.
Qed.

(** ** The results grid *)

Section Grid.

Variable load_image : string -> World -> bool.
Variable w : World.

Lemma render_loop_run (results : list QueryResult) :
  forall idx frames images,
    render_loop load_image w idx results frames images
    = (frames
       ++ map (fun ir => frame_at load_image w (fst ir) (snd ir))
              (combine (seq idx (List.length results)) results),
       images
       ++ map (fun r => os_path_join image_dir (filename r))
              (filter (fun r => load_image
                                  (os_path_join image_dir (filename r)) w)
                      results)).
Proof.
  induction results as [|r results IH]; intros idx frames images.
  - cbn. now rewrite !app_nil_r.
  - cbn [render_loop List.length seq combine map filter fst snd].
    assert (Hframe : frame_at load_image w idx r
                     = {| grid_row := (idx / 3 + 1)%nat;
                          grid_column := (idx mod 3)%nat;
                          widgets :=
                            if load_image
                                 (os_path_join image_dir (filename r)) w
                            then thumbnail_widgets
                                   (os_path_join image_dir (filename r)) r
                            else error_widgets r |}) by reflexivity.
    rewrite Hframe. clear Hframe.
    destruct (load_image (os_path_join image_dir (filename r)) w);
      rewrite IH, <- !app_assoc; reflexivity.
Qed.

Lemma nth_error_enumerate {A B : Type} (f : nat * A -> B) (l : list A) :
  forall i k,
    nth_error (map f (combine (seq i (List.length l)) l)) k
    = option_map (fun a => f ((i + k)%nat, a)) (nth_error l k).
Proof.
  induction l as [|a l IH]; intros i k.
  - destruct k; reflexivity.
  - destruct k as [|k]; cbn.
    + now rewrite Nat.add_0_r.
    + rewrite IH. now rewrite Nat.add_succ_comm.
Qed.

Lemma cells_of_enumerate (results : list QueryResult) :
  forall i,
    map (fun f => (grid_row f, grid_column f))
        (map (fun ir => frame_at load_image w (fst ir) (snd ir))
             (combine (seq i (List.length results)) results))
    = map (fun k => ((k / 3 + 1)%nat, (k mod 3)%nat))
          (seq i (List.length results)).
Proof.
  induction results as [|r results IH]; intros i; [reflexivity|].
  cbn [List.length seq combine map]. now rewrite IH.
Qed.

Lemma cell_injective (i j : nat) :
  ((i / 3 + 1)%nat, (i mod 3)%nat) = ((j / 3 + 1)%nat, (j mod 3)%nat) ->
  i = j.
Proof.
  intros Heq.
  assert (Hd : (i / 3 + 1 = j / 3 + 1)%nat) by exact (f_equal fst Heq).
  assert (Hm : (i mod 3 = j mod 3)%nat) by exact (f_equal snd Heq).
  pose proof (Nat.div_mod_eq i 3) as Hi.
  pose proof (Nat.div_mod_eq j 3) as Hj.
  rewrite Hm in Hi. assert (Hq : (i / 3 = j / 3)%nat) by lia.
  rewrite Hq in Hi. congruence.
Qed.

Lemma NoDup_map_injective {A B : Type} (f : A -> B) (l : list A) :
  (forall x y, f x = f y -> x = y) -> NoDup l -> NoDup (map f l).
Proof.
  intros Hf Hl. induction Hl as [|x l Hx Hl IH]; cbn; constructor.
  - intros Hin. apply in_map_iff in Hin as (y & Hy & Hin).
    apply Hf in Hy. now subst y.
  - exact IH.
Qed.

(** X14. [display_results] makes one frame for each result, in the order
    of the results, three to a row from row 1 on, whether or not the
    image of a result can be loaded: a result whose image fails to load
    gets the error label in its cell and the results after it are drawn
    all the same; the photos kept are those of the images that loaded. *)
Theorem one_frame_per_result (results : list QueryResult) :
  List.length (fst (render_results load_image w results))
  = List.length results
  /\ (forall idx,
        nth_error (fst (render_results load_image w results)) idx
        = option_map (frame_at load_image w idx) (nth_error results idx))
  /\ snd (render_results load_image w results)
     = map (fun r => os_path_join image_dir (filename r))
           (filter (fun r => load_image
                               (os_path_join image_dir (filename r)) w)
                   results).
Proof.
  unfold render_results. rewrite render_loop_run. cbn [fst snd app].
  split; [|split].
  - rewrite length_map, length_combine, length_seq. lia.
  - intros idx. now rewrite nth_error_enumerate.
  - reflexivity.
Qed.

(** X15. No two results share a cell of the grid, the grid has three
    columns, and row 0 is left to the header. *)
Theorem grid_cells_distinct (results : list QueryResult) :
  NoDup (map (fun f => (grid_row f, grid_column f))
             (fst (render_results load_image w results)))
  /\ Forall (fun f => (1 <= grid_row f)%nat /\ (grid_column f < 3)%nat)
            (fst (render_results load_image w results)).
Proof.
  unfold render_results. rewrite render_loop_run. cbn [fst app]. split.
  - rewrite cells_of_enumerate. apply NoDup_map_injective.
    + apply cell_injective.
    + apply seq_NoDup.
  - apply Forall_forall. intros f Hf.
    apply in_map_iff in Hf as ([i r] & <- & _).
    cbn [frame_at grid_row grid_column fst snd]. split; [lia|].
    apply Nat.mod_upper_bound. discriminate.
Qed.

End Grid.

End FurtherProperties.

(** * The further properties on the sample platforms *)

Lemma rows_until_end_sample :
  parse_results (H := sample_platform)
    (join nl ["Query Results"; "Rank Filename Distance"; "----";
              "1 a.jpg 0.25"; ""; "2 b.jpg 0.5"])
  = Ok [ {| rank := 1; filename := "a.jpg";
            distance := S754_finite false 4503599627370496 (-54) |};
         {| rank := 2; filename := "b.jpg";
            distance := S754_finite false 4503599627370496 (-53) |} ].
Proof.
  exact (rows_until_end (H := sample_platform) ["Query Results"]
           ["----"; "1 a.jpg 0.25"; ""; "2 b.jpg 0.5"]
           "Rank Filename Distance" eq_refl eq_refl eq_refl eq_refl).
Defined.

Lemma preamble_ignored_sample :
  parse_results (H := sample_platform)
    (join nl ["===="; "9 z.jpg 0.5"; ""; "Rank Filename Distance";
              "1 a.jpg 0.25"])
  = parse_results (H := sample_platform)
      (join nl ["Rank Filename Distance"; "1 a.jpg 0.25"]).
Proof.
  apply (preamble_ignored (H := sample_platform) ["===="; "9 z.jpg 0.5"; ""]
           ["Rank Filename Distance"; "1 a.jpg 0.25"]).
  - discriminate.
  - reflexivity.
  - reflexivity.
Defined.

Lemma after_banner_ignored_sample :
  parse_results (H := sample_platform)
    (join nl ["Rank Filename Distance"; "1 a.jpg 0.25"; "====";
              "2 b.jpg 0.5"; "Rank Filename Distance"; "3 c.jpg 0.75"])
  = parse_results (H := sample_platform)
      (join nl ["Rank Filename Distance"; "1 a.jpg 0.25"; "===="]).
Proof.
  exact (after_banner_ignored (H := sample_platform)
           ["Rank Filename Distance"; "1 a.jpg 0.25"]
           ["2 b.jpg 0.5"; "Rank Filename Distance"; "3 c.jpg 0.75"]
           "====" eq_refl eq_refl eq_refl eq_refl).
Defined.

Lemma crlf_same_records_sample :
  parse_results (H := sample_platform)
    (join crlf ["Rank Filename Distance"; "1 a.jpg 0.25"; "===="; ""])
  = parse_results (H := sample_platform)
      (join nl ["Rank Filename Distance"; "1 a.jpg 0.25"; "===="; ""]).
Proof.
  exact (crlf_same_records (H := sample_platform)
           ["Rank Filename Distance"; "1 a.jpg 0.25"; "===="; ""] eq_refl).
Defined.

Example crlf_sample_records :
  parse_results (H := sample_platform)
    (join crlf ["Rank Filename Distance"; "1 a.jpg 0.25"; "===="; ""])
  = Ok [ {| rank := 1; filename := "a.jpg";
            distance := S754_finite false 4503599627370496 (-54) |} ].
Proof. reflexivity. Qed.

Lemma find_matches_needs_image_sample :
  let s := init (H := sample_platform) tt in
  find_matches (H := sample_platform) s
  = (Ok tt,
     {| gui := show (gui s)
                 (showerror "Error" "Please select a query image first!");
        world := world s;
        spawned := spawned s |}).
Proof.
  exact (find_matches_needs_image (H := sample_platform)
           (init (H := sample_platform) tt) (or_introl eq_refl)).
Defined.

Lemma find_matches_needs_database_sample :
  let s := run_events (H := fresh_platform)
             [ImageChosen "../bin/data/images/q.jpg"]
             (init (H := fresh_platform) tt) in
  find_matches (H := fresh_platform) s
  = (Ok tt,
     {| gui := show (gui s)
                 (showerror "Database Not Found"
                    ("Database '../bin/data/features/histogram_features.csv'"
                     ++ " not found!" ++ nl ++ nl
                     ++ "Please build the database first.")%string);
        world := world s;
        spawned := spawned s |}).
Proof.
  exact (find_matches_needs_database (H := fresh_platform)
           (run_events (H := fresh_platform)
              [ImageChosen "../bin/data/images/q.jpg"]
              (init (H := fresh_platform) tt))
           "../bin/data/images/q.jpg"
           {| csv := "../bin/data/features/histogram_features.csv";
              metric := "histogram";
              description := "RGB Color Histogram" |}
           9%Z eq_refl eq_refl eq_refl eq_refl eq_refl).
Defined.

Lemma find_matches_raises_sample :
  let s := run_events (H := sample_platform)
             [ImageChosen "../bin/data/images/q.jpg"; TopNEdited "ten"]
             (init (H := sample_platform) tt) in
  find_matches (H := sample_platform) s = (Raise ValueError, s).
Proof.
  exact (find_matches_raises (H := sample_platform)
           (run_events (H := sample_platform)
              [ImageChosen "../bin/data/images/q.jpg"; TopNEdited "ten"]
              (init (H := sample_platform) tt))
           "../bin/data/images/q.jpg" ValueError eq_refl eq_refl eq_refl).
Defined.

(** ** The results grid on sample records *)

Example format_4f_samples :
  map (fun s => match py_float s with
                | Ok x => format_4f x
                | Raise _ => "ValueError"
                end)
      ["0.2345"; "0.00005"; "0.00015"; "0.00025"; "1e22"; "123.456789";
       "-1e-7"; "0.99995"; "0.999949999"; "5e-324"; "inf"; "-inf"; "nan";
       "2.5"; "0.125"; "3.00005"; "-0"]
  = ["0.2345"; "0.0001"; "0.0001"; "0.0003"; "10000000000000000000000.0000";
     "123.4568"; "-0.0000"; "1.0000"; "0.9999"; "0.0000"; "inf"; "-inf";
     "nan"; "2.5000"; "0.1250"; "3.0000"; "-0.0000"].
Proof. vm_compute. reflexivity. Qed.

Example render_results_sample :
  render_results (H := sample_platform) sample_load_image tt
    [ {| rank := 1; filename := "img1.jpg"; distance := S754_zero false |};
      {| rank := 2; filename := "img2.jpg";
         distance := S754_finite false 8448752900947050 (-55) |};
      {| rank := 3; filename := "img3.jpg";
         distance := S754_finite false 4503599627370496 (-53) |};
      {| rank := 4; filename := "img4.jpg";
         distance := S754_finite false 4503599627370496 (-52) |} ]
  = ([ {| grid_row := 1; grid_column := 0;
          widgets :=
            Thumbnail "../bin/data/images/img1.jpg"
              {| text := "Rank 1"; foreground := "green" |} "img1.jpg"
              {| text := "Distance: 0.0000 (Query)";
                 foreground := "gray" |} |};
       {| grid_row := 1; grid_column := 1;
          widgets :=
            ErrorLabel {| text := ("Error loading" ++ nl ++ "img2.jpg")%string;
                          foreground := "red" |} |};
       {| grid_row := 1; grid_column := 2;
          widgets :=
            Thumbnail "../bin/data/images/img3.jpg"
              {| text := "Rank 3"; foreground := "blue" |} "img3.jpg"
              {| text := "Distance: 0.5000"; foreground := "gray" |} |};
       {| grid_row := 2; grid_column := 0;
          widgets :=
            Thumbnail "../bin/data/images/img4.jpg"
              {| text := "Rank 4"; foreground := "blue" |} "img4.jpg"
              {| text := "Distance: 1.0000"; foreground := "gray" |} |} ],
     [ "../bin/data/images/img1.jpg"; "../bin/data/images/img3.jpg";
       "../bin/data/images/img4.jpg" ]).
Proof. reflexivity. Qed.
